(** * Posture Guard: the posture classifier of [posture_analyzer.py]

    A shallow embedding of the pure methods of [PostureAnalyzer] that carry
    the domain logic,

    - [calculate_angle]         (the angle at a vertex, in degrees),
    - [detect_facing_direction] (left / right from nose and shoulders),
    - [analyze_squat_posture] and [analyze_sitting_posture] (the rules),

    and of what the pipeline around them computes: the colours and pixel
    conversions of [draw_custom_landmarks] and the bookkeeping of
    [process_video] and [process_image], with the cv2 calls left to the
    host.  The properties the specification states come first, further
    properties of the code after them.

    Numbers are IEEE 754 binary64 values, as Python's [float] and numpy's
    [float64] are: Rocq's primitive floats, with their NaN, infinities and
    rounding.  A lookup [landmarks[i]] that is out of range raises
    [IndexError]; a computation that can raise returns an [option]. *)

From Stdlib Require Import ZArith Floats String List Bool Lia.
Import ListNotations.

Set Warnings "-inexact-float".

Local Open Scope string_scope.
Local Open Scope float_scope.

(** ** Exceptions *)

(** [None] stands for a raised exception; the only one these methods can
    raise is the [IndexError] of a landmark lookup. *)
Definition bind {A B : Type} (m : option A) (k : A -> option B) : option B :=
  match m with
  | Some v => k v
  | None => None
  end.

Notation "'let?' p ':=' m 'in' k" :=
  (bind m (fun p => k))
  (at level 10, p pattern, m at level 100, k at level 200).

(** [l.append(v)] *)
Definition append {A : Type} (l : list A) (v : A) : list A := (l ++ [v])%list.

(** ** Landmarks *)

(** A MediaPipe normalized landmark.  The analyzer reads [x] and [y] only. *)
Module Landmark.
Record t : Type := mk { x : float; y : float; z : float; visibility : float }.
End Landmark.

(** [mp.solutions.pose.PoseLandmark]: the [.value] of the members the
    analyzer names, as MediaPipe numbers its 33 pose landmarks. *)
Module PoseLandmark.
Definition NOSE : nat := 0.
Definition LEFT_EAR : nat := 7.
Definition RIGHT_EAR : nat := 8.
Definition LEFT_SHOULDER : nat := 11.
Definition RIGHT_SHOULDER : nat := 12.
Definition LEFT_HIP : nat := 23.
Definition RIGHT_HIP : nat := 24.
Definition LEFT_KNEE : nat := 25.
Definition RIGHT_KNEE : nat := 26.
Definition LEFT_ANKLE : nat := 27.
Definition RIGHT_ANKLE : nat := 28.
Definition LEFT_FOOT_INDEX : nat := 31.
Definition RIGHT_FOOT_INDEX : nat := 32.
End PoseLandmark.

(** The landmark sequence of one frame, indexed by [PoseLandmark] value. *)
Definition Landmarks : Type := list Landmark.t.

(** [landmarks[i]] *)
Definition getitem (landmarks : Landmarks) (i : nat) : option Landmark.t :=
  nth_error landmarks i.

(** A point is the two-element list [[x, y]]; [p[0]] is [fst p]. *)
Definition point : Type := (float * float)%type.

(** [[landmarks[i].x, landmarks[i].y]] *)
Definition xy (landmarks : Landmarks) (i : nat) : option point :=
  let? l := getitem landmarks i in
  Some (Landmark.x l, Landmark.y l).

(** ** numpy on two-element [float64] arrays *)

(** [a - b], elementwise. *)
Definition np_sub (a b : point) : point :=
  (fst a - fst b, snd a - snd b).

(** [np.dot(u, v)]: the sum of the two products, each rounded.  (The source
    does not say whether the BLAS behind [np.dot] fuses the multiplication
    and the addition; the model does not.) *)
Definition np_dot (u v : point) : float :=
  fst u * fst v + snd u * snd v.

(** [np.linalg.norm(u)] of a real vector: [sqrt(u.dot(u))]. *)
Definition np_linalg_norm (u : point) : float :=
  sqrt (np_dot u u).

(** [np.clip(v, lo, hi)] on a scalar: a NaN passes through, any other value
    is raised to [lo] and then lowered to [hi]. *)
Definition np_clip (v lo hi : float) : float :=
  if is_nan v then v
  else
    let m := if lo <? v then v else lo in
    if m <? hi then m else hi.

(** The binary64 value nearest to pi, [np.pi]. *)
Definition np_pi : float := 3.141592653589793.

(** [180.0 / pi], the factor of [np.degrees]: 57.29577951308232. *)
Definition RAD2DEG : float := 180 / np_pi.

(** [np.degrees(r)] *)
Definition degrees (r : float) : float := r * RAD2DEG.

(** The library functions whose binary64 results the source does not
    determine: numpy's inverse cosine (the platform's [acos]) and the
    builtin [round(v, 1)], on a [float64] and on a [float]. *)
Class Libm : Type := {
  arccos : float -> float;
  np_round1 : float -> float;
  py_round1 : float -> float
}.

(** What every [acos] guarantees and the properties below rely on: a NaN
    yields a NaN, [-1] yields pi, and an argument in [[-1, 1]] yields an
    angle whose degree value is within [[0, 180]]. *)
Record LibmSpec (L : Libm) : Prop := {
  arccos_nan : arccos nan = nan;
  arccos_m1 : arccos (-1) = np_pi;
  arccos_range : forall v,
    (-1 <=? v) = true -> (v <=? 1) = true ->
    (0 <=? degrees (arccos v)) = true /\ (degrees (arccos v) <=? 180) = true
}.

(** ** The analyzer *)

(** The dictionary both evaluators return; [angles] keeps insertion order. *)
Record Result : Type := {
  isGoodPosture : bool;
  feedback : string;
  angles : list (string * float);
  warnings : list string
}.

Definition KNEE_OVER_TOE : string :=
  "Knee extends beyond toe - risk of injury".
Definition BACK_ANGLE : string :=
  "Back angle too upright or too low - maintain natural forward lean (30° to 60° wrt thigh)".
Definition SQUAT_DEPTH : string :=
  "Squat depth needs improvement - aim for 90-degree knee bend (80° to 120°)".
Definition HEAD_POSTURE : string :=
  "Adjust head posture - align ears over shoulders (20° max)".
Definition NEUTRAL_SPINE : string :=
  "Back not straight - maintain neutral spine (80° to 115°)".

Section Analyzer.
Context {L : Libm}.

(** The quotient [calculate_angle] computes before it clamps. *)
Definition cosine_ratio (a b c : point) : float :=
  let ba := np_sub a b in
  let bc := np_sub c b in
  np_dot ba bc / (np_linalg_norm ba * np_linalg_norm bc).

Definition calculate_angle (a b c : point) : float :=
  let ba := np_sub a b in
  let bc := np_sub c b in
  let cosine_angle := np_dot ba bc / (np_linalg_norm ba * np_linalg_norm bc) in
  let cosine_angle := np_clip cosine_angle (-1) 1 in
  let angle := arccos cosine_angle in
  degrees angle.

Definition detect_facing_direction (landmarks : Landmarks) : option string :=
  let? ls := getitem landmarks PoseLandmark.LEFT_SHOULDER in
  let left_shoulder := Landmark.x ls in
  let? rs := getitem landmarks PoseLandmark.RIGHT_SHOULDER in
  let right_shoulder := Landmark.x rs in
  let? n := getitem landmarks PoseLandmark.NOSE in
  let nose := Landmark.x n in
  if (right_shoulder <? nose) || (left_shoulder <? nose)
  then Some "right"
  else Some "left".

(** The points the squat evaluator reads: hip, knee, ankle, toe, shoulder. *)
Definition squat_points (landmarks : Landmarks) (facing : string)
  : option (point * point * point * point * point) :=
  if String.eqb facing "left" then
    let? hip := xy landmarks PoseLandmark.LEFT_HIP in
    let? knee := xy landmarks PoseLandmark.LEFT_KNEE in
    let? ankle := xy landmarks PoseLandmark.LEFT_ANKLE in
    let? toe := xy landmarks PoseLandmark.LEFT_FOOT_INDEX in
    let? shoulder := xy landmarks PoseLandmark.LEFT_SHOULDER in
    Some (hip, knee, ankle, toe, shoulder)
  else
    let? hip := xy landmarks PoseLandmark.RIGHT_HIP in
    let? knee := xy landmarks PoseLandmark.RIGHT_KNEE in
    let? ankle := xy landmarks PoseLandmark.RIGHT_ANKLE in
    let? toe := xy landmarks PoseLandmark.RIGHT_FOOT_INDEX in
    let? shoulder := xy landmarks PoseLandmark.RIGHT_SHOULDER in
    Some (hip, knee, ankle, toe, shoulder).

(** The evaluator from [knee_angle = ...] on: the rules run in sequence on
    the pair of [warnings] and [is_good_posture]. *)
Definition squat_rules (facing : string) (hip knee ankle toe shoulder : point)
  : Result :=
  let knee_angle := calculate_angle hip knee ankle in
  let back_angle := calculate_angle shoulder hip knee in
  let st := ([] : list string, true) in
  let st :=
    if (String.eqb facing "right" && (fst toe <? fst knee))
       || (String.eqb facing "left" && (fst knee <? fst toe))
    then (append (fst st) KNEE_OVER_TOE, false) else st in
  let st :=
    if negb ((30 <=? back_angle) && (back_angle <=? 60))
    then (append (fst st) BACK_ANGLE, false) else st in
  let st :=
    if negb ((80 <=? knee_angle) && (knee_angle <=? 120))
    then (append (fst st) SQUAT_DEPTH, false) else st in
  let feedback := if snd st then "Good squat form" else "Adjust your squat form" in
  {| isGoodPosture := snd st;
     feedback := feedback;
     angles := [("knee", np_round1 knee_angle); ("back", np_round1 back_angle)];
     warnings := fst st |}.

Definition analyze_squat_posture (landmarks : Landmarks) (facing : string)
  : option Result :=
  let? (hip, knee, ankle, toe, shoulder) := squat_points landmarks facing in
  Some (squat_rules facing hip knee ankle toe shoulder).

(** The points the sitting evaluator reads: ear, shoulder, hip, knee. *)
Definition sitting_points (landmarks : Landmarks) (facing : string)
  : option (point * point * point * point) :=
  if String.eqb facing "left" then
    let? ear := xy landmarks PoseLandmark.LEFT_EAR in
    let? shoulder := xy landmarks PoseLandmark.LEFT_SHOULDER in
    let? hip := xy landmarks PoseLandmark.LEFT_HIP in
    let? knee := xy landmarks PoseLandmark.LEFT_KNEE in
    Some (ear, shoulder, hip, knee)
  else
    let? ear := xy landmarks PoseLandmark.RIGHT_EAR in
    let? shoulder := xy landmarks PoseLandmark.RIGHT_SHOULDER in
    let? hip := xy landmarks PoseLandmark.RIGHT_HIP in
    let? knee := xy landmarks PoseLandmark.RIGHT_KNEE in
    Some (ear, shoulder, hip, knee).

(** The evaluator from [neck_angle = ...] on. *)
Definition sitting_rules (ear shoulder hip knee : point) : Result :=
  let neck_angle := abs (fst ear - fst shoulder) * 100 in
  let back_angle := calculate_angle shoulder hip knee in
  let st := ([] : list string, true) in
  let st :=
    if 10 <? neck_angle
    then (append (fst st) HEAD_POSTURE, false) else st in
  let st :=
    if negb ((80 <=? back_angle) && (back_angle <=? 115))
    then (append (fst st) NEUTRAL_SPINE, false) else st in
  let feedback :=
    if snd st then "Good sitting posture" else "Adjust your sitting position" in
  {| isGoodPosture := snd st;
     feedback := feedback;
     angles := [("neck", py_round1 neck_angle); ("back", np_round1 back_angle)];
     warnings := fst st |}.

Definition analyze_sitting_posture (landmarks : Landmarks) (facing : string)
  : option Result :=
  let? (ear, shoulder, hip, knee) := sitting_points landmarks facing in
  Some (sitting_rules ear shoulder hip knee).

End Analyzer.

(** ** Reading the comparisons as propositions *)

(** [a < b] and [a <= b] on binary64 values: false when either is a NaN. *)
Definition flt (a b : float) : Prop := (a <? b) = true.
Definition fle (a b : float) : Prop := (a <=? b) = true.

(** [lo <= v <= hi]; a value outside the interval is one for which this
    fails, a NaN among them. *)
Definition within (lo hi v : float) : Prop := fle lo v /\ fle v hi.

(** The two kinds of test the evaluators make. *)
Definition knee_over_toe_test (facing : string) (knee toe : point) : bool :=
  (String.eqb facing "right" && (fst toe <? fst knee))
    || (String.eqb facing "left" && (fst knee <? fst toe)).

Definition outside (lo hi v : float) : bool :=
  negb ((lo <=? v) && (v <=? hi)).

(** A value that is a zero of either sign or a NaN. *)
Definition zero_or_nan (u : float) : Prop :=
  match Prim2SF u with
  | S754_zero _ | S754_nan => True
  | _ => False
  end.

(** ** The specification's wording of the angle *)

(** Clamping as the specification words it: a value below [lo] becomes [lo],
    a value above [hi] becomes [hi], any other value is kept. *)
Definition clamp (lo hi v : float) : float :=
  if v <? lo then lo else if hi <? v then hi else v.

(** The operation as the specification words it: form [ba = a - b] and
    [bc = c - b], compute the cosine as the dot product over the product of
    the norms, clamp it to [[-1, 1]], return the degrees of its inverse
    cosine. *)
Definition angle_at_vertex {L : Libm} (a b c : point) : float :=
  let ba := np_sub a b in
  let bc := np_sub c b in
  let cos_theta := np_dot ba bc / (np_linalg_norm ba * np_linalg_norm bc) in
  let cos_theta := clamp (-1) 1 cos_theta in
  degrees (arccos cos_theta).

(** ** The two sides *)

(** The two sides, the facing string of each, and the landmark each side
    uses in each role. *)
Inductive Side : Type := Left | Right.

Definition facing_of (s : Side) : string :=
  match s with Left => "left" | Right => "right" end.

Module Joint.
Import PoseLandmark.
Definition hip (s : Side) : nat := match s with Left => LEFT_HIP | Right => RIGHT_HIP end.
Definition knee (s : Side) : nat := match s with Left => LEFT_KNEE | Right => RIGHT_KNEE end.
Definition ankle (s : Side) : nat := match s with Left => LEFT_ANKLE | Right => RIGHT_ANKLE end.
Definition toe (s : Side) : nat :=
  match s with Left => LEFT_FOOT_INDEX | Right => RIGHT_FOOT_INDEX end.
Definition shoulder (s : Side) : nat :=
  match s with Left => LEFT_SHOULDER | Right => RIGHT_SHOULDER end.
Definition ear (s : Side) : nat := match s with Left => LEFT_EAR | Right => RIGHT_EAR end.
End Joint.

(** The landmarks of side [s] the squat evaluator names, and those the
    sitting evaluator names. *)
Definition squat_joints (s : Side) : list nat :=
  [Joint.hip s; Joint.knee s; Joint.ankle s; Joint.toe s; Joint.shoulder s].

Definition sitting_joints (s : Side) : list nat :=
  [Joint.ear s; Joint.shoulder s; Joint.hip s; Joint.knee s].

(** Two frames hold the same [x] and [y] (or both nothing) at each of the
    listed indices; elsewhere they may differ in any way, length included. *)
Definition agree_on (js : list nat) (l1 l2 : Landmarks) : Prop :=
  forall j, In j js -> xy l1 j = xy l2 j.

(** The points of side [s], read in the order the evaluators read them. *)
Definition squat_points_of (s : Side) (landmarks : Landmarks)
  : option (point * point * point * point * point) :=
  let? hip := xy landmarks (Joint.hip s) in
  let? knee := xy landmarks (Joint.knee s) in
  let? ankle := xy landmarks (Joint.ankle s) in
  let? toe := xy landmarks (Joint.toe s) in
  let? shoulder := xy landmarks (Joint.shoulder s) in
  Some (hip, knee, ankle, toe, shoulder).

Definition sitting_points_of (s : Side) (landmarks : Landmarks)
  : option (point * point * point * point) :=
  let? ear := xy landmarks (Joint.ear s) in
  let? shoulder := xy landmarks (Joint.shoulder s) in
  let? hip := xy landmarks (Joint.hip s) in
  let? knee := xy landmarks (Joint.knee s) in
  Some (ear, shoulder, hip, knee).

(** ** A reference instance of the library functions

    One table-driven inverse cosine that meets [LibmSpec], and numpy's
    scale-and-round for [round(v, 1)].  It shows that the assumptions made
    on [arccos] can be met and lets the evaluators run on examples. *)

Definition HALF_PI : float := 1.5707963267948966.

Definition arccos_table (v : float) : float :=
  if v =? -1 then np_pi
  else if v =? 1 then 0
  else if (-1 <=? v) && (v <=? 1) then HALF_PI
  else nan.

Definition TWO52 : float := 4503599627370496.

(** Round to the nearest integer, ties to even. *)
Definition rint (v : float) : float :=
  if abs v <? TWO52 then
    if 0 <=? v then (v + TWO52) - TWO52 else (v - TWO52) + TWO52
  else v.

Definition round1_scaled (v : float) : float := rint (v * 10) / 10.

Definition ref_libm : Libm :=
  {| arccos := arccos_table; np_round1 := round1_scaled; py_round1 := round1_scaled |}.

(** A frame of 33 landmarks, all at the origin except those listed. *)
Definition at_xy (x y : float) : Landmark.t := Landmark.mk x y 0 1.

Fixpoint set_nth (i : nat) (v : Landmark.t) (l : Landmarks) : Landmarks :=
  match l, i with
  | [], _ => []
  | _ :: t, O => v :: t
  | h :: t, S j => h :: set_nth j v t
  end.

Definition frame_of (ps : list (nat * point)) : Landmarks :=
  fold_left (fun l p => set_nth (fst p) (at_xy (fst (snd p)) (snd (snd p))) l)
            ps (repeat (at_xy 0 0) 33).

(** ** Sample frames and points *)

(** A squat frame seen from the right: the knee is ahead of the toe. *)
Definition squat_frame_right : Landmarks :=
  frame_of [(PoseLandmark.RIGHT_HIP, (0.4, 0.6));
            (PoseLandmark.RIGHT_KNEE, (0.6, 0.6));
            (PoseLandmark.RIGHT_ANKLE, (0.6, 0.85));
            (PoseLandmark.RIGHT_FOOT_INDEX, (0.55, 0.9));
            (PoseLandmark.RIGHT_SHOULDER, (0.4, 0.3))].

(** A sitting frame seen from the left: the ear is 0.15 ahead of the
    shoulder, the back is at a right angle to the thigh. *)
Definition sitting_frame_left : Landmarks :=
  frame_of [(PoseLandmark.LEFT_EAR, (0.25, 0.2));
            (PoseLandmark.LEFT_SHOULDER, (0.4, 0.35));
            (PoseLandmark.LEFT_HIP, (0.4, 0.6));
            (PoseLandmark.LEFT_KNEE, (0.7, 0.6))].

(** The left-hand sample frame with every right-hand landmark moved: the
    sitting evaluator, facing left, cannot tell the two apart. *)
Definition sitting_frame_left_moved : Landmarks :=
  set_nth PoseLandmark.RIGHT_EAR (at_xy 0.9 0.9)
    (set_nth PoseLandmark.RIGHT_SHOULDER (at_xy 0.1 0.7)
       (set_nth PoseLandmark.RIGHT_HIP (at_xy 0.3 0.3)
          (set_nth PoseLandmark.RIGHT_KNEE (at_xy 0.8 0.1) sitting_frame_left))).

(** A frame whose nose is to the right of the left shoulder. *)
Definition facing_frame : Landmarks :=
  frame_of [(PoseLandmark.NOSE, (0.55, 0.2));
            (PoseLandmark.LEFT_SHOULDER, (0.5, 0.35));
            (PoseLandmark.RIGHT_SHOULDER, (0.6, 0.35))].

(** The frame of the scenario: the left hip, knee and ankle on one vertical
    line. *)
Definition collinear_frame : Landmarks :=
  frame_of [(PoseLandmark.LEFT_HIP, (0.5, 0.5));
            (PoseLandmark.LEFT_KNEE, (0.5, 0.65));
            (PoseLandmark.LEFT_ANKLE, (0.5, 0.85));
            (PoseLandmark.LEFT_FOOT_INDEX, (0.45, 0.85));
            (PoseLandmark.LEFT_SHOULDER, (0.5, 0.3))].

(** A frame whose left hip and left knee coincide. *)
Definition degenerate_frame : Landmarks :=
  frame_of [(PoseLandmark.LEFT_HIP, (0.5, 0.5));
            (PoseLandmark.LEFT_KNEE, (0.5, 0.5));
            (PoseLandmark.LEFT_ANKLE, (0.5, 0.85));
            (PoseLandmark.LEFT_FOOT_INDEX, (0.45, 0.85));
            (PoseLandmark.LEFT_SHOULDER, (0.5, 0.3))].

(** Two vectors of length 1e-200 along the axes, and twice the vector of
    length 1e200 along the first axis. *)
Definition origin : point := (0, 0).
Definition tiny_x : point := (1e-200, 0).
Definition tiny_y : point := (0, 1e-200).
Definition huge_x : point := (1e200, 0).

(** A point with a NaN coordinate. *)
Definition has_nan (p : point) : bool := is_nan (fst p) || is_nan (snd p).

(** ** Drawing: the colour of each landmark *)

(** A colour triple as [cv2.circle] takes it. *)
Definition Color : Type := (Z * Z * Z)%type.

(** [idx in pts] on a list of ints. *)
Definition contains (idx : nat) (pts : list nat) : bool :=
  existsb (Nat.eqb idx) pts.

(** The three index lists [draw_custom_landmarks] builds from [facing]. *)
Definition back_pts (facing : string) : list nat :=
  if String.eqb facing "left"
  then [PoseLandmark.LEFT_SHOULDER; PoseLandmark.LEFT_HIP; PoseLandmark.LEFT_KNEE]
  else [PoseLandmark.RIGHT_SHOULDER; PoseLandmark.RIGHT_HIP; PoseLandmark.RIGHT_KNEE].

Definition knee_pts (facing : string) : list nat :=
  if String.eqb facing "left"
  then [PoseLandmark.LEFT_HIP; PoseLandmark.LEFT_KNEE; PoseLandmark.LEFT_ANKLE]
  else [PoseLandmark.RIGHT_HIP; PoseLandmark.RIGHT_KNEE; PoseLandmark.RIGHT_ANKLE].

Definition neck_pts (facing : string) : list nat :=
  if String.eqb facing "left"
  then [PoseLandmark.LEFT_EAR; PoseLandmark.LEFT_SHOULDER]
  else [PoseLandmark.RIGHT_EAR; PoseLandmark.RIGHT_SHOULDER].

(** The colour of the circle drawn for the landmark at index [idx]: the
    body of the loop over [enumerate(landmarks)]. *)
Definition landmark_color (facing : string) (idx : nat) : Color :=
  let color := (255, 255, 255)%Z in
  if contains idx (back_pts facing) then (0, 0, 0)%Z
  else if contains idx (knee_pts facing) then (139, 0, 0)%Z
  else if contains idx (neck_pts facing) then (0, 0, 139)%Z
  else color.

(** The side an evaluator or the drawing settles on for a facing string. *)
Definition side_of (facing : string) : Side :=
  if String.eqb facing "left" then Left else Right.

(** ** Drawing: from landmarks to pixels *)

(** [int(v)] on a float: the value truncated toward zero; a NaN raises
    [ValueError] and an infinity [OverflowError]. *)
Definition py_int (v : float) : option Z :=
  match Prim2SF v with
  | S754_nan => None
  | S754_infinity _ => None
  | S754_zero _ => Some 0%Z
  | S754_finite s m e =>
      let a := Z.shiftl (Zpos m) e in
      Some (if s then (- a)%Z else a)
  end.

(** The float an int becomes in mixed arithmetic (image sizes are far
    below the range of a float). *)
Definition Z2F (z : Z) : float := SF2Prim (binary_normalize prec emax z 0 false).

(** [int(lm.x * w), int(lm.y * h)] *)
Definition to_pixel (h w : Z) (lm : Landmark.t) : option (Z * Z) :=
  let? cx := py_int (Landmark.x lm * Z2F w) in
  let? cy := py_int (Landmark.y lm * Z2F h) in
  Some (cx, cy).

(** ** The frame pipeline *)

(** A Python number: the timestamp is the int [0] for an image and a float
    for a video frame. *)
Inductive PyNum : Type :=
  | PyInt (z : Z)
  | PyFloat (f : float).

(** What the analyzer takes from its host: MediaPipe's list of connections,
    whether a cv2 drawing call completes ([false]: it raises), and the
    float an int division yields when it yields one (a divisor of zero is
    handled apart, in [truediv]). *)
Class Host : Type := {
  POSE_CONNECTIONS : list (nat * nat);
  cv2_line : Z * Z -> Z * Z -> bool;
  cv2_circle : Z * Z -> Color -> bool;
  int_truediv : Z -> Z -> option float
}.

(** [a / b] on two ints. *)
Definition truediv {H : Host} (a b : Z) : option PyNum :=
  if Z.eqb b 0 then None
  else
    let? q := int_truediv a b in
    Some (PyFloat q).

(** The dictionary of an evaluator with the two keys the pipeline adds. *)
Record Analysis : Type := {
  result : Result;
  timestamp : PyNum;
  postureType : string
}.

(** A frame as the pipeline sees it: the shape of the image and the pose
    landmarks found in it, if any. *)
Record Frame : Type := {
  height : Z;
  width : Z;
  pose_landmarks : option Landmarks
}.

Section Pipeline.
Context {L : Libm} {H : Host}.

(** The first loop of [draw_custom_landmarks]: a line for each connection.
    [None] stands for an exception that leaves the method. *)
Fixpoint draw_connections (h w : Z) (landmarks : Landmarks)
    (connections : list (nat * nat)) : option unit :=
  match connections with
  | [] => Some tt
  | (start_idx, end_idx) :: rest =>
      let? start := getitem landmarks start_idx in
      let? end_ := getitem landmarks end_idx in
      let? p1 := to_pixel h w start in
      let? p2 := to_pixel h w end_ in
      let? _ := (if cv2_line p1 p2 then Some tt else None) in
      draw_connections h w landmarks rest
  end.

(** The second loop: a circle for each landmark, [idx] counting from the
    index of the first one in [lms]. *)
Fixpoint draw_circles (h w : Z) (facing : string) (idx : nat)
    (lms : list Landmark.t) : option unit :=
  match lms with
  | [] => Some tt
  | lm :: rest =>
      let? c := to_pixel h w lm in
      let color := landmark_color facing idx in
      let? _ := (if cv2_circle c color then Some tt else None) in
      draw_circles h w facing (S idx) rest
  end.

Definition draw_custom_landmarks (h w : Z) (landmarks : Landmarks)
    (facing : string) : option unit :=
  let? _ := draw_connections h w landmarks POSE_CONNECTIONS in
  draw_circles h w facing 0 landmarks.

(** The steps [process_video] and [process_image] share for a frame with
    landmarks: classify, draw, evaluate. *)
Definition analyze_frame (posture_type : string) (h w : Z)
    (landmarks : Landmarks) : option Result :=
  let? facing := detect_facing_direction landmarks in
  let? _ := draw_custom_landmarks h w landmarks facing in
  if String.eqb posture_type "squat"
  then analyze_squat_posture landmarks facing
  else analyze_sitting_posture landmarks facing.

(** The loop of [process_video] over the frames the capture delivers.  The
    text overlay and the writing of the frame are cv2 calls of their own and
    leave no trace in the value returned. *)
Fixpoint video_loop (posture_type : string) (fps : Z) (frames : list Frame)
    (frame_count : Z) (analysis_results : list Analysis)
  : option (list Analysis) :=
  match frames with
  | [] => Some analysis_results
  | frame :: rest =>
      let frame_count := (frame_count + 1)%Z in
      match pose_landmarks frame with
      | Some landmarks =>
          let? analysis :=
            analyze_frame posture_type (height frame) (width frame) landmarks in
          let? ts := truediv frame_count fps in
          let analysis :=
            {| result := analysis; timestamp := ts; postureType := posture_type |} in
          video_loop posture_type fps rest frame_count
            (append analysis_results analysis)
      | None => video_loop posture_type fps rest frame_count analysis_results
      end
  end.

Definition process_video (posture_type : string) (fps : Z)
    (frames : list Frame) : option (list Analysis) :=
  video_loop posture_type fps frames 0 [].

Definition process_image (posture_type : string) (image : Frame)
  : option (list Analysis) :=
  let analysis_results := [] in
  match pose_landmarks image with
  | Some landmarks =>
      let? analysis :=
        analyze_frame posture_type (height image) (width image) landmarks in
      let analysis :=
        {| result := analysis; timestamp := PyInt 0; postureType := posture_type |} in
      Some (append analysis_results analysis)
  | None => Some analysis_results
  end.

End Pipeline.

(** The frames with landmarks, each with its position counted from
    [k + 1]. *)
Fixpoint detected_from (k : Z) (frames : list Frame)
  : list (Z * Frame * Landmarks) :=
  match frames with
  | [] => []
  | frame :: rest =>
      match pose_landmarks frame with
      | Some landmarks =>
          ((k + 1)%Z, frame, landmarks) :: detected_from (k + 1) rest
      | None => detected_from (k + 1) rest
      end
  end.

(** A float that [int] refuses: a NaN or an infinity. *)
Definition not_finite (v : float) : bool :=
  match Prim2SF v with
  | S754_nan | S754_infinity _ => true
  | _ => false
  end.

(** A reference host: MediaPipe's 35 connections, drawing calls that always
    complete, an int division that rounds the operands and divides. *)
Definition ref_host : Host :=
  {| POSE_CONNECTIONS :=
       [(0, 1); (1, 2); (2, 3); (3, 7); (0, 4); (4, 5); (5, 6); (6, 8);
        (9, 10); (11, 12); (11, 13); (13, 15); (15, 17); (15, 19); (15, 21);
        (17, 19); (12, 14); (14, 16); (16, 18); (16, 20); (16, 22); (18, 20);
        (11, 23); (12, 24); (23, 24); (23, 25); (24, 26); (25, 27); (26, 28);
        (27, 29); (28, 30); (29, 31); (30, 32); (27, 31); (28, 32)]%nat;
     cv2_line := fun _ _ => true;
     cv2_circle := fun _ _ => true;
     int_truediv := fun a b => Some (Z2F a / Z2F b) |}.

(** A 640 by 480 frame. *)
Definition vga (pose : option Landmarks) : Frame :=
  {| height := 480; width := 640; pose_landmarks := pose |}.

(** Four frames at 25 frames per second: no pose in the first and the
    third. *)
Definition sample_video : list Frame :=
  [vga None; vga (Some sitting_frame_left); vga None; vga (Some squat_frame_right)].

(** [facing_frame] with a NaN as the x-coordinate of the left heel. *)
Definition nan_frame : Landmarks := set_nth 29 (at_xy nan 0.9) facing_frame.

(** * Properties *)

(** ** Facts about binary64 arithmetic *)

Module IEEE.

Lemma SFmul_comm prec emax u v : SFmul prec emax u v = SFmul prec emax v u.
Proof.
  destruct u as [su|su| |su mu eu], v as [sv|sv| |sv mv ev]; simpl;
    try reflexivity; try (now rewrite xorb_comm).
  now rewrite xorb_comm, Pos.mul_comm, Z.add_comm.
Qed.

Lemma mul_comm u v : u * v = v * u.
Proof. apply Prim2SF_inj. rewrite !mul_spec. apply SFmul_comm. Qed.

Lemma SFcompare_refl u : u <> S754_nan -> SFcompare u u = Some Eq.
Proof.
  destruct u as [s|s| |s m e]; simpl; intros H; try congruence.
  - now destruct s.
  - destruct s; rewrite Z.compare_refl, Pos.compare_cont_refl; reflexivity.
Qed.

Lemma is_nan_true u : is_nan u = true -> u = nan.
Proof.
  unfold is_nan. rewrite FloatAxioms.eqb_spec. unfold SFeqb. intros H.
  apply Prim2SF_inj. change (Prim2SF nan) with S754_nan.
  destruct (Prim2SF u) eqn:E; try reflexivity;
    rewrite SFcompare_refl in H by congruence; discriminate.
Qed.

Lemma ltb_leb u v : (u <? v) = true -> (u <=? v) = true.
Proof.
  rewrite ltb_spec, leb_spec. unfold SFltb, SFleb.
  destruct (SFcompare _ _) as [[]|]; congruence.
Qed.

Lemma sub_diag u : zero_or_nan (u - u).
Proof.
  unfold zero_or_nan. rewrite sub_spec. unfold SF64sub.
  destruct (Prim2SF u) as [s|s| |s m e]; simpl; try exact I.
  - now destruct s.
  - now destruct s.
  - rewrite Z.min_id, Z.sub_diag. exact I.
Qed.

Lemma mul_zn_l u v : zero_or_nan u -> zero_or_nan (u * v).
Proof.
  unfold zero_or_nan. rewrite mul_spec. unfold SF64mul.
  destruct (Prim2SF u), (Prim2SF v); simpl; tauto.
Qed.

Lemma mul_zn_r u v : zero_or_nan v -> zero_or_nan (u * v).
Proof. rewrite mul_comm. apply mul_zn_l. Qed.

Lemma add_zn u v : zero_or_nan u -> zero_or_nan v -> zero_or_nan (u + v).
Proof.
  unfold zero_or_nan. rewrite add_spec. unfold SF64add.
  destruct (Prim2SF u) as [su|su| |su mu eu],
           (Prim2SF v) as [sv|sv| |sv mv ev]; simpl; try tauto.
  destruct su, sv; tauto.
Qed.

Lemma sqrt_zn u : zero_or_nan u -> zero_or_nan (sqrt u).
Proof.
  unfold zero_or_nan. rewrite sqrt_spec. unfold SF64sqrt.
  destruct (Prim2SF u) as [su|su| |su mu eu]; simpl; tauto.
Qed.

Lemma div_zn u v : zero_or_nan u -> zero_or_nan v -> u / v = nan.
Proof.
  unfold zero_or_nan. intros Hu Hv. apply Prim2SF_inj. rewrite div_spec.
  change (Prim2SF nan) with S754_nan. unfold SF64div.
  destruct (Prim2SF u) as [su|su| |su mu eu],
           (Prim2SF v) as [sv|sv| |sv mv ev]; simpl; tauto.
Qed.

Lemma SFcompare_antisym u v :
  SFcompare v u = option_map CompOpp (SFcompare u v).
Proof.
  destruct u as [su|su| |su mu eu], v as [sv|sv| |sv mv ev]; simpl;
    try reflexivity;
    try (destruct su; reflexivity); try (destruct sv; reflexivity);
    try (destruct su, sv; reflexivity).
  destruct su, sv; try reflexivity;
    rewrite (Z.compare_antisym eu ev);
    destruct (eu ?= ev)%Z eqn:E; simpl; try reflexivity;
    rewrite (Pos.compare_cont_antisym mu mv Eq); simpl;
    try reflexivity; now rewrite CompOpp_involutive.
Qed.

Lemma SFcompare_eq_finite u s m e :
  SFcompare u (S754_finite s m e) = Some Eq -> u = S754_finite s m e.
Proof.
  destruct u as [su|su| |su mu eu]; simpl; try discriminate;
    try (destruct su; discriminate); try (destruct s; discriminate).
  destruct su, s; try discriminate;
    destruct (eu ?= e)%Z eqn:E; try discriminate;
    apply Z.compare_eq in E; subst;
    intros H; injection H as H.
  - apply (f_equal CompOpp) in H. rewrite CompOpp_involutive in H. simpl in H.
    apply Pos.compare_eq in H. now subst.
  - apply Pos.compare_eq in H. now subst.
Qed.

(** Two values that are not NaN compare. *)
Lemma compare_defined u c :
  is_nan u = false -> is_nan c = false ->
  exists o, SFcompare (Prim2SF u) (Prim2SF c) = Some o.
Proof.
  unfold is_nan. rewrite !FloatAxioms.eqb_spec. unfold SFeqb.
  destruct (Prim2SF u) as [su|su| |su mu eu], (Prim2SF c) as [sv|sv| |sv mv ev];
    simpl; try discriminate; intros _ _; eexists; reflexivity.
Qed.

(** How a value that is not a NaN stands to a finite non-zero constant [c]:
    below it, equal to it, or above it, and the two strict tests say which. *)
Lemma trichotomy u c s m e :
  is_nan u = false -> Prim2SF c = S754_finite s m e ->
  ((u <? c) = true /\ (c <? u) = false)
  \/ u = c
  \/ ((u <? c) = false /\ (c <? u) = true).
Proof.
  intros Hu Hc.
  assert (Nc : is_nan c = false).
  { unfold is_nan. rewrite FloatAxioms.eqb_spec. unfold SFeqb.
    rewrite SFcompare_refl; [reflexivity | rewrite Hc; discriminate]. }
  destruct (compare_defined u c Hu Nc) as [o Ho].
  rewrite !ltb_spec. unfold SFltb.
  rewrite (SFcompare_antisym (Prim2SF u) (Prim2SF c)), Ho. simpl.
  destruct o; auto.
  right; left. apply Prim2SF_inj. rewrite Hc in *.
  now apply SFcompare_eq_finite.
Qed.

End IEEE.

(** [ref_libm] meets the assumptions on [arccos]. *)
Lemma ref_libm_spec : LibmSpec ref_libm.
Proof.
  split.
  - reflexivity.
  - reflexivity.
  - intros v Hlo Hhi. simpl. unfold arccos_table.
    destruct (v =? -1); [split; reflexivity|].
    destruct (v =? 1); [split; reflexivity|].
    rewrite Hlo, Hhi. split; reflexivity.
Qed.

(** ** The messages *)

Lemma messages_distinct :
  KNEE_OVER_TOE <> BACK_ANGLE /\ KNEE_OVER_TOE <> SQUAT_DEPTH /\
  BACK_ANGLE <> SQUAT_DEPTH /\ HEAD_POSTURE <> NEUTRAL_SPINE.
Proof. repeat split; discriminate. Qed.

(** ** Running the evaluators *)

Section Run.
Context {L : Libm}.

Lemma analyze_squat_posture_run landmarks facing :
  analyze_squat_posture landmarks facing =
  match squat_points landmarks facing with
  | Some (hip, knee, ankle, toe, shoulder) =>
      Some (squat_rules facing hip knee ankle toe shoulder)
  | None => None
  end.
Proof.
  unfold analyze_squat_posture, bind.
  destruct (squat_points landmarks facing) as [[[[[? ?] ?] ?] ?]|]; reflexivity.
Qed.

Lemma analyze_sitting_posture_run landmarks facing :
  analyze_sitting_posture landmarks facing =
  match sitting_points landmarks facing with
  | Some (ear, shoulder, hip, knee) => Some (sitting_rules ear shoulder hip knee)
  | None => None
  end.
Proof.
  unfold analyze_sitting_posture, bind.
  destruct (sitting_points landmarks facing) as [[[[? ?] ?] ?]|]; reflexivity.
Qed.

(** The truth value of the knee-over-toe test, as a proposition. *)
Lemma knee_over_toe_iff facing (knee toe : point) :
  knee_over_toe_test facing knee toe = true
  <-> (facing = "right" /\ flt (fst toe) (fst knee))
      \/ (facing = "left" /\ flt (fst knee) (fst toe)).
Proof.
  unfold knee_over_toe_test, flt.
  rewrite orb_true_iff, !andb_true_iff, !String.eqb_eq. tauto.
Qed.

Lemma outside_iff lo hi v :
  outside lo hi v = true <-> ~ within lo hi v.
Proof.
  unfold outside, within, fle. rewrite negb_true_iff, andb_false_iff.
  destruct (lo <=? v), (v <=? hi); intuition congruence.
Qed.

End Run.

(** ** The squat rules *)

Section Squat.
Context {L : Libm}.

(** Each test that holds appends its message, every test is run, and the
    verdict is good exactly when none held. *)
Lemma squat_rules_unfold facing hip knee ankle toe shoulder :
  let t1 := knee_over_toe_test facing knee toe in
  let t2 := outside 30 60 (calculate_angle shoulder hip knee) in
  let t3 := outside 80 120 (calculate_angle hip knee ankle) in
  let r := squat_rules facing hip knee ankle toe shoulder in
  warnings r = ((if t1 then [KNEE_OVER_TOE] else [])
                  ++ (if t2 then [BACK_ANGLE] else [])
                  ++ (if t3 then [SQUAT_DEPTH] else []))%list
  /\ isGoodPosture r = negb t1 && negb t2 && negb t3
  /\ feedback r = (if isGoodPosture r then "Good squat form"
                   else "Adjust your squat form").
Proof.
  unfold knee_over_toe_test, outside, squat_rules.
  destruct (_ || _), (negb (_ && (_ <=? 60))), (negb (_ && (_ <=? 120)));
    repeat split.
Qed.

Lemma in_three (t1 t2 t3 : bool) :
  let ws := ((if t1 then [KNEE_OVER_TOE] else [])
               ++ (if t2 then [BACK_ANGLE] else [])
               ++ (if t3 then [SQUAT_DEPTH] else []))%list in
  (In KNEE_OVER_TOE ws <-> t1 = true)
  /\ (In BACK_ANGLE ws <-> t2 = true)
  /\ (In SQUAT_DEPTH ws <-> t3 = true)
  /\ (forall w, In w ws ->
        w = KNEE_OVER_TOE \/ w = BACK_ANGLE \/ w = SQUAT_DEPTH)
  /\ NoDup ws.
Proof.
  destruct messages_distinct as (kb & ks & bs & _).
  assert (bk : BACK_ANGLE <> KNEE_OVER_TOE) by congruence.
  assert (sk : SQUAT_DEPTH <> KNEE_OVER_TOE) by congruence.
  assert (sb : SQUAT_DEPTH <> BACK_ANGLE) by congruence.
  destruct t1, t2, t3; cbn [app In];
    (split; [|split; [|split; [|split]]]);
    try (split; [tauto || (intros; exfalso; tauto) | tauto || discriminate]);
    try (intros w Hw; intuition congruence);
    repeat (constructor; cbn [In]; try tauto).
Qed.

End Squat.

(** C1. Whenever the squat evaluator returns a result, it is the outcome of
    exactly three rules on the selected hip, knee, ankle, toe and shoulder,
    each decided on its own:
    - the message that begins "Knee extends beyond toe" is among the
      warnings iff facing is "right" and knee.x > toe.x, or facing is "left"
      and knee.x < toe.x;
    - the message that begins "Back angle too upright or too low" is among
      them iff the angle at the hip (shoulder, hip, knee) is not within
      [30, 60], bounds included;
    - the message that begins "Squat depth needs improvement" is among them
      iff the angle at the knee (hip, knee, ankle) is not within [80, 120];
    - there is no other warning and none is repeated;
    - the verdict is bad iff some rule fired, and the feedback is
      "Good squat form" when none fired and "Adjust your squat form"
      otherwise. *)
Theorem squat_evaluator_rules (L : Libm) (landmarks : Landmarks)
    (facing : string) (r : Result) :
  analyze_squat_posture landmarks facing = Some r ->
  exists hip knee ankle toe shoulder : point,
    squat_points landmarks facing = Some (hip, knee, ankle, toe, shoulder)
    /\ let knee_over_toe :=
         (facing = "right" /\ flt (fst toe) (fst knee))
         \/ (facing = "left" /\ flt (fst knee) (fst toe)) in
       let back_outside := ~ within 30 60 (calculate_angle shoulder hip knee) in
       let knee_outside := ~ within 80 120 (calculate_angle hip knee ankle) in
       (In KNEE_OVER_TOE (warnings r) <-> knee_over_toe)
       /\ (In BACK_ANGLE (warnings r) <-> back_outside)
       /\ (In SQUAT_DEPTH (warnings r) <-> knee_outside)
       /\ (forall w, In w (warnings r) ->
             w = KNEE_OVER_TOE \/ w = BACK_ANGLE \/ w = SQUAT_DEPTH)
       /\ NoDup (warnings r)
       /\ (isGoodPosture r = false <->
             knee_over_toe \/ back_outside \/ knee_outside)
       /\ (feedback r = "Good squat form" <->
             ~ (knee_over_toe \/ back_outside \/ knee_outside))
       /\ (feedback r = "Adjust your squat form" <->
             knee_over_toe \/ back_outside \/ knee_outside)
       /\ String.prefix "Knee extends beyond toe" KNEE_OVER_TOE = true
       /\ String.prefix "Back angle too upright or too low" BACK_ANGLE = true
       /\ String.prefix "Squat depth needs improvement" SQUAT_DEPTH = true.
Proof.
  rewrite analyze_squat_posture_run.
  destruct (squat_points landmarks facing)
    as [[[[[hip knee] ankle] toe] shoulder]|]; [|discriminate].
  intros [= <-]. exists hip, knee, ankle, toe, shoulder.
  split; [reflexivity|]. cbv zeta.
  destruct (squat_rules_unfold facing hip knee ankle toe shoulder)
    as (Uw & Ug & Uf).
  pose proof (knee_over_toe_iff facing knee toe) as I1.
  pose proof (outside_iff 30 60 (calculate_angle shoulder hip knee)) as I2.
  pose proof (outside_iff 80 120 (calculate_angle hip knee ankle)) as I3.
  rewrite Uw, Uf, Ug.
  destruct (in_three (knee_over_toe_test facing knee toe)
              (outside 30 60 (calculate_angle shoulder hip knee))
              (outside 80 120 (calculate_angle hip knee ankle)))
    as (M1 & M2 & M3 & M4 & M5).
  cbv zeta in M1, M2, M3, M4, M5.
  rewrite M1, M2, M3, <- I1, <- I2, <- I3.
  repeat split; try assumption;
    destruct (knee_over_toe_test _ _ _), (outside 30 _ _), (outside 80 _ _);
    cbn; intuition discriminate.
Qed.

(** On [squat_frame_right], seen from the right, the evaluator returns a
    result, and the knee-over-toe rule fires. *)
Lemma squat_evaluator_rules_witness :
  exists r,
    analyze_squat_posture (L := ref_libm) squat_frame_right "right" = Some r
    /\ In KNEE_OVER_TOE (warnings r)
    /\ ~ In SQUAT_DEPTH (warnings r)
    /\ feedback r = "Adjust your squat form".
Proof.
  eexists. split; [reflexivity|].
  destruct (squat_evaluator_rules ref_libm squat_frame_right "right" _ eq_refl)
    as (hip & knee & ankle & toe & shoulder & Hp & HK & _ & HS & _ & _ & _ & _ & HF & _).
  vm_compute in Hp. injection Hp as <- <- <- <- <-.
  split; [|split].
  - apply HK. left. split; reflexivity.
  - intros H. apply HS in H. apply H. split; reflexivity.
  - apply HF. left. left. split; reflexivity.
Defined.

(** ** The sitting rules *)

Section Sitting.
Context {L : Libm}.

Lemma sitting_rules_unfold ear shoulder hip knee :
  let neck_angle := abs (fst ear - fst shoulder) * 100 in
  let back_angle := calculate_angle shoulder hip knee in
  let t1 := 10 <? neck_angle in
  let t2 := outside 80 115 back_angle in
  let r := sitting_rules ear shoulder hip knee in
  warnings r = ((if t1 then [HEAD_POSTURE] else [])
                  ++ (if t2 then [NEUTRAL_SPINE] else []))%list
  /\ isGoodPosture r = negb t1 && negb t2
  /\ feedback r = (if isGoodPosture r then "Good sitting posture"
                   else "Adjust your sitting position")
  /\ angles r = [("neck", py_round1 neck_angle); ("back", np_round1 back_angle)].
Proof.
  unfold outside, sitting_rules.
  destruct (10 <? _), (negb (_ && (_ <=? 115))); repeat split.
Qed.

Lemma in_two (t1 t2 : bool) :
  let ws := ((if t1 then [HEAD_POSTURE] else [])
               ++ (if t2 then [NEUTRAL_SPINE] else []))%list in
  (In HEAD_POSTURE ws <-> t1 = true)
  /\ (In NEUTRAL_SPINE ws <-> t2 = true)
  /\ (forall w, In w ws -> w = HEAD_POSTURE \/ w = NEUTRAL_SPINE)
  /\ NoDup ws.
Proof.
  destruct messages_distinct as (_ & _ & _ & hn).
  assert (nh : NEUTRAL_SPINE <> HEAD_POSTURE) by congruence.
  destruct t1, t2; cbn [app In];
    (split; [|split; [|split]]);
    try (split; [tauto || (intros; exfalso; tauto) | tauto || discriminate]);
    try (intros w Hw; intuition congruence);
    repeat (constructor; cbn [In]; try tauto).
Qed.

End Sitting.

(** C2. Whenever the sitting evaluator returns a result, the neck value it
    reports is [round(abs(ear.x - shoulder.x) * 100, 1)], a scaled
    horizontal offset in which [calculate_angle] takes no part, and the back
    value is the rounded angle at the hip (shoulder, hip, knee).  The
    head-posture message is among the warnings iff that neck value before
    rounding exceeds 10: the gate is the constant 10 although the message
    ends "(20° max)".  The neutral-spine message is among them iff the back
    angle is not within [80, 115].  There is no other warning, and the
    verdict is bad iff one of the two rules fired. *)
Theorem sitting_evaluator_rules (L : Libm) (landmarks : Landmarks)
    (facing : string) (r : Result) :
  analyze_sitting_posture landmarks facing = Some r ->
  exists ear shoulder hip knee : point,
    sitting_points landmarks facing = Some (ear, shoulder, hip, knee)
    /\ let neck_angle := abs (fst ear - fst shoulder) * 100 in
       let back_angle := calculate_angle shoulder hip knee in
       angles r = [("neck", py_round1 neck_angle); ("back", np_round1 back_angle)]
       /\ (In HEAD_POSTURE (warnings r) <-> flt 10 neck_angle)
       /\ (In NEUTRAL_SPINE (warnings r) <-> ~ within 80 115 back_angle)
       /\ (forall w, In w (warnings r) -> w = HEAD_POSTURE \/ w = NEUTRAL_SPINE)
       /\ NoDup (warnings r)
       /\ (isGoodPosture r = false <->
             flt 10 neck_angle \/ ~ within 80 115 back_angle)
       /\ (feedback r = "Good sitting posture" <->
             ~ (flt 10 neck_angle \/ ~ within 80 115 back_angle))
       /\ (feedback r = "Adjust your sitting position" <->
             flt 10 neck_angle \/ ~ within 80 115 back_angle)
       /\ String.prefix "Adjust head posture" HEAD_POSTURE = true
       /\ String.prefix "Back not straight" NEUTRAL_SPINE = true.
Proof.
  rewrite analyze_sitting_posture_run.
  destruct (sitting_points landmarks facing)
    as [[[[ear shoulder] hip] knee]|]; [|discriminate].
  intros [= <-]. exists ear, shoulder, hip, knee.
  split; [reflexivity|]. cbv zeta.
  destruct (sitting_rules_unfold ear shoulder hip knee) as (Uw & Ug & Uf & Ua).
  pose proof (outside_iff 80 115 (calculate_angle shoulder hip knee)) as I2.
  rewrite Uw, Uf, Ug, Ua.
  destruct (in_two (10 <? abs (fst ear - fst shoulder) * 100)
              (outside 80 115 (calculate_angle shoulder hip knee)))
    as (M1 & M2 & M3 & M4).
  cbv zeta in M1, M2, M3, M4.
  rewrite M1, M2, <- I2. unfold flt.
  repeat split; try assumption;
    destruct (10 <? _), (outside 80 _ _);
    cbn; intuition discriminate.
Qed.

(** On [sitting_frame_left] the neck value is 15: above the gate of 10 and
    below the 20 of the message, and the head-posture rule fires. *)
Lemma sitting_evaluator_rules_witness :
  exists r,
    analyze_sitting_posture (L := ref_libm) sitting_frame_left "left" = Some r
    /\ In HEAD_POSTURE (warnings r)
    /\ ~ In NEUTRAL_SPINE (warnings r)
    /\ isGoodPosture r = false.
Proof.
  eexists. split; [reflexivity|].
  destruct (sitting_evaluator_rules ref_libm sitting_frame_left "left" _ eq_refl)
    as (ear & shoulder & hip & knee & Hp & _ & HH & HN & _ & _ & HG & _).
  vm_compute in Hp. injection Hp as <- <- <- <-.
  split; [|split].
  - apply HH. reflexivity.
  - intros H. apply HN in H. apply H. split; reflexivity.
  - apply HG. left. reflexivity.
Defined.

(** ** The verdict and the warnings agree *)

(** C3. In every result of the squat evaluator and in every result of the
    sitting evaluator, whatever the landmarks and the facing, the warnings
    are empty iff the verdict is good. *)
Theorem warnings_empty_iff_good (L : Libm) (landmarks : Landmarks)
    (facing : string) (r : Result) :
  analyze_squat_posture landmarks facing = Some r
  \/ analyze_sitting_posture landmarks facing = Some r ->
  (warnings r = [] <-> isGoodPosture r = true).
Proof.
  rewrite analyze_squat_posture_run, analyze_sitting_posture_run.
  intros [H|H].
  - destruct (squat_points landmarks facing)
      as [[[[[hip knee] ankle] toe] shoulder]|]; [|discriminate].
    injection H as <-.
    destruct (squat_rules_unfold facing hip knee ankle toe shoulder)
      as (Uw & Ug & _).
    rewrite Uw, Ug.
    destruct (knee_over_toe_test _ _ _), (outside 30 _ _), (outside 80 _ _);
      cbn; split; intros; try reflexivity; discriminate.
  - destruct (sitting_points landmarks facing)
      as [[[[ear shoulder] hip] knee]|]; [|discriminate].
    injection H as <-.
    destruct (sitting_rules_unfold ear shoulder hip knee) as (Uw & Ug & _).
    rewrite Uw, Ug.
    destruct (10 <? _), (outside 80 _ _);
      cbn; split; intros; try reflexivity; discriminate.
Qed.

(** Both evaluators return a result on their sample frames; the squat one
    has warnings and a bad verdict. *)
Lemma warnings_empty_iff_good_witness :
  exists r,
    analyze_squat_posture (L := ref_libm) squat_frame_right "right" = Some r
    /\ (warnings r = [] <-> isGoodPosture r = true)
    /\ isGoodPosture r = false.
Proof.
  eexists. split; [reflexivity|]. split.
  - apply (warnings_empty_iff_good ref_libm squat_frame_right "right").
    left. reflexivity.
  - reflexivity.
Defined.

(** ** The facing classifier *)

(** C4. On every landmark sequence that holds the nose and both shoulders
    the classifier returns a value, and that value is one of "left" and
    "right" (two different strings): it is "right" iff nose.x exceeds
    right_shoulder.x or nose.x exceeds left_shoulder.x, and "left"
    otherwise. *)
Theorem detect_facing_direction_total (landmarks : Landmarks)
    (nose left_shoulder right_shoulder : Landmark.t) :
  getitem landmarks PoseLandmark.NOSE = Some nose ->
  getitem landmarks PoseLandmark.LEFT_SHOULDER = Some left_shoulder ->
  getitem landmarks PoseLandmark.RIGHT_SHOULDER = Some right_shoulder ->
  exists facing,
    detect_facing_direction landmarks = Some facing
    /\ (facing = "left" \/ facing = "right")
    /\ ~ (facing = "left" /\ facing = "right")
    /\ (facing = "right" <->
          flt (Landmark.x right_shoulder) (Landmark.x nose)
          \/ flt (Landmark.x left_shoulder) (Landmark.x nose))
    /\ (facing = "left" <->
          ~ (flt (Landmark.x right_shoulder) (Landmark.x nose)
             \/ flt (Landmark.x left_shoulder) (Landmark.x nose))).
Proof.
  intros Hn Hl Hr. unfold detect_facing_direction, flt.
  rewrite Hl, Hr, Hn. cbn [bind].
  destruct (Landmark.x right_shoulder <? Landmark.x nose),
           (Landmark.x left_shoulder <? Landmark.x nose); cbn [orb];
    eexists; (split; [reflexivity|]); repeat split;
    try (intros [? ?]; congruence); try (intros; discriminate);
    intuition congruence || auto.
Qed.

(** On [facing_frame] the nose (0.55) exceeds the left shoulder (0.5) though
    not the right one (0.6): the subject faces right. *)
Lemma detect_facing_direction_total_witness :
  detect_facing_direction facing_frame = Some "right".
Proof.
  destruct (detect_facing_direction_total facing_frame
              (at_xy 0.55 0.2) (at_xy 0.5 0.35) (at_xy 0.6 0.35)
              eq_refl eq_refl eq_refl)
    as (facing & -> & _ & _ & Hright & _).
  f_equal. apply Hright. right. reflexivity.
Defined.

(** ** Side selection *)

Lemma squat_points_side (s : Side) (landmarks : Landmarks) :
  squat_points landmarks (facing_of s) = squat_points_of s landmarks.
Proof. destruct s; reflexivity. Qed.

Lemma sitting_points_side (s : Side) (landmarks : Landmarks) :
  sitting_points landmarks (facing_of s) = sitting_points_of s landmarks.
Proof. destruct s; reflexivity. Qed.

Lemma squat_points_of_agree (s : Side) (l1 l2 : Landmarks) :
  agree_on (squat_joints s) l1 l2 ->
  squat_points_of s l1 = squat_points_of s l2.
Proof.
  intros H. unfold squat_points_of.
  rewrite (H (Joint.hip s)), (H (Joint.knee s)), (H (Joint.ankle s)),
    (H (Joint.toe s)), (H (Joint.shoulder s));
    [reflexivity | cbn; tauto ..].
Qed.

Lemma sitting_points_of_agree (s : Side) (l1 l2 : Landmarks) :
  agree_on (sitting_joints s) l1 l2 ->
  sitting_points_of s l1 = sitting_points_of s l2.
Proof.
  intros H. unfold sitting_points_of.
  rewrite (H (Joint.ear s)), (H (Joint.shoulder s)), (H (Joint.hip s)),
    (H (Joint.knee s));
    [reflexivity | cbn; tauto ..].
Qed.

(** Any facing string other than "left" takes the else branch. *)
Lemma squat_points_else (facing : string) (landmarks : Landmarks) :
  facing <> "left" ->
  squat_points landmarks facing = squat_points_of Right landmarks.
Proof.
  intros H. unfold squat_points.
  destruct (String.eqb_spec facing "left"); [contradiction | reflexivity].
Qed.

Lemma sitting_points_else (facing : string) (landmarks : Landmarks) :
  facing <> "left" ->
  sitting_points landmarks facing = sitting_points_of Right landmarks.
Proof.
  intros H. unfold sitting_points.
  destruct (String.eqb_spec facing "left"); [contradiction | reflexivity].
Qed.

(** C5. For each side [s], with facing "left" for the left side and "right"
    for the right one, both evaluators read the landmarks of that side only:
    the squat evaluator reads hip, knee, ankle, foot index and shoulder of
    side [s], the sitting evaluator ear, shoulder, hip and knee of side [s],
    and two frames that agree there get the same outcome (the same result,
    or the same failure), whatever they hold elsewhere.  The outcome is one
    and the same computation for both sides, [squat_rules] and
    [sitting_rules], applied to the points of the selected side. *)
Theorem side_selection (L : Libm) (s : Side) (l1 l2 : Landmarks) :
  (agree_on (squat_joints s) l1 l2 ->
   analyze_squat_posture l1 (facing_of s) = analyze_squat_posture l2 (facing_of s))
  /\ (agree_on (sitting_joints s) l1 l2 ->
      analyze_sitting_posture l1 (facing_of s)
      = analyze_sitting_posture l2 (facing_of s))
  /\ analyze_squat_posture l1 (facing_of s)
     = (let? (hip, knee, ankle, toe, shoulder) := squat_points_of s l1 in
        Some (squat_rules (facing_of s) hip knee ankle toe shoulder))
  /\ analyze_sitting_posture l1 (facing_of s)
     = (let? (ear, shoulder, hip, knee) := sitting_points_of s l1 in
        Some (sitting_rules ear shoulder hip knee)).
Proof.
  unfold analyze_squat_posture, analyze_sitting_posture.
  rewrite !squat_points_side, !sitting_points_side.
  repeat split.
  - intros H. now rewrite (squat_points_of_agree s l1 l2 H).
  - intros H. now rewrite (sitting_points_of_agree s l1 l2 H).
Qed.

Lemma side_selection_witness :
  sitting_frame_left_moved <> sitting_frame_left
  /\ analyze_sitting_posture (L := ref_libm) sitting_frame_left_moved "left"
     = analyze_sitting_posture (L := ref_libm) sitting_frame_left "left"
  /\ analyze_sitting_posture (L := ref_libm) sitting_frame_left_moved "right"
     <> analyze_sitting_posture (L := ref_libm) sitting_frame_left "right".
Proof.
  split; [|split].
  - intros H.
    apply (f_equal (fun l => Prim2SF (Landmark.x (nth 8 l (at_xy 0 0))))) in H.
    vm_compute in H. discriminate.
  - destruct (side_selection ref_libm Left sitting_frame_left_moved
                sitting_frame_left) as (_ & Hs & _).
    apply Hs. intros j Hj.
    cbn in Hj. decompose [or] Hj; subst; try reflexivity; contradiction.
  - intros H. vm_compute in H. discriminate.
Defined.

(** C10. For every facing string other than "left", the strings outside
    {"left", "right"} among them, both evaluators go through their else
    branch and read the RIGHT landmarks: the points are those of the right
    side, nothing checks the string, and the only failure left is that of a
    RIGHT landmark missing from the frame.  The sitting result is the one
    for "right"; the squat result is [squat_rules] under the given string
    on the right-side points. *)
Theorem unvalidated_facing (L : Libm) (facing : string) (landmarks : Landmarks) :
  facing <> "left" ->
  squat_points landmarks facing = squat_points_of Right landmarks
  /\ sitting_points landmarks facing = sitting_points_of Right landmarks
  /\ analyze_squat_posture landmarks facing
     = (let? (hip, knee, ankle, toe, shoulder) := squat_points_of Right landmarks in
        Some (squat_rules facing hip knee ankle toe shoulder))
  /\ analyze_sitting_posture landmarks facing
     = analyze_sitting_posture landmarks "right"
  /\ (analyze_squat_posture landmarks facing = None <->
        squat_points_of Right landmarks = None)
  /\ (analyze_sitting_posture landmarks facing = None <->
        sitting_points_of Right landmarks = None).
Proof.
  intros H.
  pose proof (squat_points_else facing landmarks H) as Hq.
  pose proof (sitting_points_else facing landmarks H) as Hs.
  unfold analyze_squat_posture, analyze_sitting_posture.
  rewrite Hq, Hs. change (sitting_points landmarks "right")
    with (sitting_points_of Right landmarks).
  repeat split; try assumption.
  - destruct (squat_points_of Right landmarks) as [[[[[? ?] ?] ?] ?]|];
      cbn; intros; congruence.
  - intros ->. reflexivity.
  - destruct (sitting_points_of Right landmarks) as [[[[? ?] ?] ?]|];
      cbn; intros; congruence.
  - intros ->. reflexivity.
Qed.

(** With the facing "Left" (capitalised, so not the string "left") the squat
    evaluator reads the right side of [squat_frame_right] and returns a
    result; no knee-over-toe warning is possible under such a string. *)
Lemma unvalidated_facing_witness :
  "Left" <> "left"
  /\ squat_points squat_frame_right "Left"
     = Some ((0.4, 0.6), (0.6, 0.6), (0.6, 0.85), (0.55, 0.9), (0.4, 0.3))
  /\ exists r,
       analyze_squat_posture (L := ref_libm) squat_frame_right "Left" = Some r
       /\ warnings r = [BACK_ANGLE].
Proof.
  assert (N : "Left" <> "left") by discriminate.
  destruct (unvalidated_facing ref_libm "Left" squat_frame_right N)
    as (Hq & _ & Ha & _).
  split; [exact N|]. split.
  - rewrite Hq. reflexivity.
  - rewrite Ha. eexists. split; reflexivity.
Defined.

(** ** The angle at a vertex *)

Section Geometry.
Context {L : Libm}.

Lemma calculate_angle_unfold a b c :
  calculate_angle a b c = degrees (arccos (np_clip (cosine_ratio a b c) (-1) 1)).
Proof. reflexivity. Qed.

(** numpy's clip and the specification's clamp agree on every value. *)
Lemma np_clip_clamp v : np_clip v (-1) 1 = clamp (-1) 1 v.
Proof.
  unfold np_clip, clamp. destruct (is_nan v) eqn:N.
  - apply IEEE.is_nan_true in N. subst v. reflexivity.
  - destruct (IEEE.trichotomy v (-1) true 4503599627370496 (-52) N eq_refl)
      as [[-> ->]|[->|[-> ->]]]; try reflexivity.
    destruct (IEEE.trichotomy v 1 false 4503599627370496 (-52) N eq_refl)
      as [[-> ->]|[->|[-> ->]]]; reflexivity.
Qed.

(** What leaves the clip is within [[-1, 1]] unless it is a NaN. *)
Lemma np_clip_within v : is_nan v = false -> within (-1) 1 (np_clip v (-1) 1).
Proof.
  intros N. unfold np_clip, within, fle. rewrite N.
  destruct (-1 <? v) eqn:E1.
  - destruct (v <? 1) eqn:E2.
    + split; now apply IEEE.ltb_leb.
    + split; [reflexivity | reflexivity].
  - split; reflexivity.
Qed.

(** A NaN quotient comes out as a NaN. *)
Lemma calculate_angle_nan a b c :
  arccos nan = nan ->
  is_nan (cosine_ratio a b c) = true ->
  calculate_angle a b c = nan.
Proof.
  intros A N. rewrite calculate_angle_unfold.
  apply IEEE.is_nan_true in N. rewrite N.
  change (np_clip nan (-1) 1) with nan. rewrite A. reflexivity.
Qed.

Lemma nan_not_within lo hi : ~ within lo hi nan.
Proof.
  unfold within, fle. intros [H _]. rewrite leb_spec in H.
  change (Prim2SF nan) with S754_nan in H. unfold SFleb in H.
  destruct (Prim2SF lo); discriminate.
Qed.

End Geometry.

(** C6, as the code has it.  With an inverse cosine that meets [LibmSpec],
    [calculate_angle] is the specification's algorithm on every point triple
    (the quotient of the dot product by the product of the norms, clamped to
    [[-1, 1]], then the degrees of the inverse cosine), and its value is
    within [[0, 180]] exactly when that quotient is not a NaN; when the
    quotient is a NaN, the value is a NaN. *)
Theorem calculate_angle_spec (L : Libm) (a b c : point) :
  LibmSpec L ->
  calculate_angle a b c = angle_at_vertex a b c
  /\ (is_nan (cosine_ratio a b c) = false ->
      within (-1) 1 (np_clip (cosine_ratio a b c) (-1) 1)
      /\ within 0 180 (calculate_angle a b c))
  /\ (is_nan (cosine_ratio a b c) = true -> calculate_angle a b c = nan)
  /\ (within 0 180 (calculate_angle a b c) <->
      is_nan (cosine_ratio a b c) = false).
Proof.
  intros S.
  assert (R : is_nan (cosine_ratio a b c) = false ->
              within 0 180 (calculate_angle a b c)).
  { intros N. rewrite calculate_angle_unfold.
    destruct (np_clip_within _ N) as [Hlo Hhi].
    exact (arccos_range L S _ Hlo Hhi). }
  split; [|split; [|split; [|split]]].
  - unfold calculate_angle, angle_at_vertex. cbv zeta.
    now rewrite np_clip_clamp.
  - intros N. split; [now apply np_clip_within | now apply R].
  - apply calculate_angle_nan. apply (arccos_nan L S).
  - intros W. destruct (is_nan (cosine_ratio a b c)) eqn:N; [|reflexivity].
    rewrite (calculate_angle_nan a b c (arccos_nan L S) N) in W.
    now apply nan_not_within in W.
  - exact R.
Qed.

(** The right angle at the origin between the two axes: 90 degrees. *)
Lemma calculate_angle_spec_witness :
  calculate_angle (L := ref_libm) (1, 0) (0, 0) (0, 1) = 90
  /\ within 0 180 (calculate_angle (L := ref_libm) (1, 0) (0, 0) (0, 1)).
Proof.
  destruct (calculate_angle_spec ref_libm (1, 0) (0, 0) (0, 1) ref_libm_spec)
    as (_ & H & _).
  split; [reflexivity | apply H; reflexivity].
Defined.

(** C6 as the claim states it fails.  The points [tiny_x], [origin] and
    [tiny_y] lie in the unit square and both vectors from the origin are
    non-zero, yet their squared lengths underflow to zero and the quotient is
    0/0; from [huge_x] the computed norms are non-zero (infinite) and the
    quotient is inf/inf.  In both cases the value returned is a NaN, under
    every inverse cosine that sends a NaN to a NaN, and a NaN is not within
    [[0, 180]]. *)
Lemma calculate_angle_range_counterexample :
  (flt 0 (fst (np_sub tiny_x origin)) /\ flt 0 (snd (np_sub tiny_y origin))
   /\ within 0 1 (fst tiny_x) /\ within 0 1 (snd tiny_y)
   /\ forall L : Libm, arccos nan = nan ->
        calculate_angle tiny_x origin tiny_y = nan)
  /\ (flt 0 (np_linalg_norm (np_sub huge_x origin))
      /\ forall L : Libm, arccos nan = nan ->
           calculate_angle huge_x origin huge_x = nan)
  /\ ~ within 0 180 nan
  /\ LibmSpec ref_libm.
Proof.
  split; [|split; [|split]].
  - repeat split; try reflexivity.
    intros L A. now apply calculate_angle_nan.
  - split; [reflexivity|].
    intros L A. now apply calculate_angle_nan.
  - apply nan_not_within.
  - apply ref_libm_spec.
Qed.

(** C7. For all points [a], [b] and [c], [calculate_angle a b c] and
    [calculate_angle c b a] are the same binary64 value: exchanging the two
    ray endpoints exchanges the factors of each product and nothing else.
    When that value is not a NaN, the two also compare equal under the
    floating-point equality test. *)
Theorem calculate_angle_sym (L : Libm) (a b c : point) :
  calculate_angle a b c = calculate_angle c b a
  /\ (is_nan (calculate_angle a b c) = false ->
      (calculate_angle a b c =? calculate_angle c b a) = true).
Proof.
  assert (E : calculate_angle a b c = calculate_angle c b a).
  { unfold calculate_angle, np_dot. cbv zeta.
    rewrite (IEEE.mul_comm (fst (np_sub a b)) (fst (np_sub c b))).
    rewrite (IEEE.mul_comm (snd (np_sub a b)) (snd (np_sub c b))).
    rewrite (IEEE.mul_comm (np_linalg_norm (np_sub a b))
               (np_linalg_norm (np_sub c b))).
    reflexivity. }
  split; [exact E|].
  rewrite <- E. unfold is_nan. now rewrite negb_false_iff.
Qed.

(** ** The collinear squat scenario *)

(** C8. On every frame whose left hip, knee, ankle, foot index and shoulder
    are (0.5,0.5), (0.5,0.65), (0.5,0.85), (0.45,0.85) and (0.5,0.3), with
    facing "left" and an inverse cosine that sends -1 to pi: the quotient at
    the knee is exactly -1 and the knee angle exactly 180, which is not
    within [80, 120]; the evaluator returns a result whose verdict is bad
    and whose warnings hold the message that begins "Squat depth". *)
Theorem squat_collinear_scenario (L : Libm) (landmarks : Landmarks) :
  arccos (-1) = np_pi ->
  xy landmarks PoseLandmark.LEFT_HIP = Some (0.5, 0.5) ->
  xy landmarks PoseLandmark.LEFT_KNEE = Some (0.5, 0.65) ->
  xy landmarks PoseLandmark.LEFT_ANKLE = Some (0.5, 0.85) ->
  xy landmarks PoseLandmark.LEFT_FOOT_INDEX = Some (0.45, 0.85) ->
  xy landmarks PoseLandmark.LEFT_SHOULDER = Some (0.5, 0.3) ->
  cosine_ratio (0.5, 0.5) (0.5, 0.65) (0.5, 0.85) = -1
  /\ calculate_angle (0.5, 0.5) (0.5, 0.65) (0.5, 0.85) = 180
  /\ ~ within 80 120 180
  /\ String.prefix "Squat depth" SQUAT_DEPTH = true
  /\ exists r,
       analyze_squat_posture landmarks "left" = Some r
       /\ isGoodPosture r = false
       /\ In SQUAT_DEPTH (warnings r)
       /\ In ("knee", np_round1 180) (angles r)
       /\ feedback r = "Adjust your squat form".
Proof.
  intros A Hh Hk Ha Ht Hs.
  assert (K : calculate_angle (0.5, 0.5) (0.5, 0.65) (0.5, 0.85) = 180).
  { rewrite calculate_angle_unfold.
    change (np_clip _ (-1) 1) with (-1). rewrite A. reflexivity. }
  split; [reflexivity|]. split; [exact K|].
  split; [intros [_ H]; vm_compute in H; discriminate H|].
  split; [reflexivity|].
  unfold analyze_squat_posture, squat_points.
  change (String.eqb "left" "left") with true. cbv iota.
  rewrite Hh, Hk, Ha, Ht, Hs. cbn [bind].
  eexists. split; [reflexivity|].
  destruct (squat_rules_unfold "left" (0.5, 0.5) (0.5, 0.65) (0.5, 0.85)
              (0.45, 0.85) (0.5, 0.3)) as (Uw & Ug & Uf).
  rewrite K in Uw, Ug.
  change (outside 80 120 180) with true in Uw, Ug.
  split; [|split; [|split]].
  - rewrite Ug. now rewrite !andb_false_r.
  - rewrite Uw. apply in_or_app. right. apply in_or_app. right. now left.
  - unfold squat_rules. cbn [angles]. rewrite K. now left.
  - rewrite Uf, Ug. now rewrite !andb_false_r.
Qed.

(** The scenario on [collinear_frame] under the reference functions: the
    back angle is a straight 180 as well, so two warnings are raised. *)
Lemma squat_collinear_scenario_witness :
  exists r,
    analyze_squat_posture (L := ref_libm) collinear_frame "left" = Some r
    /\ isGoodPosture r = false
    /\ warnings r = [BACK_ANGLE; SQUAT_DEPTH].
Proof.
  destruct (squat_collinear_scenario ref_libm collinear_frame
              eq_refl eq_refl eq_refl eq_refl eq_refl eq_refl)
    as (_ & _ & _ & _ & r & Hr & Hg & _).
  exists r. split; [exact Hr|]. split; [exact Hg|].
  vm_compute in Hr. injection Hr as <-. reflexivity.
Defined.

(** ** Degenerate triples *)

Section Degenerate.
Context {L : Libm}.

(** The difference of a point with itself has components that are zero or
    NaN (the latter from an infinite or NaN coordinate). *)
Lemma np_sub_diag (p : point) :
  zero_or_nan (fst (np_sub p p)) /\ zero_or_nan (snd (np_sub p p)).
Proof. split; apply IEEE.sub_diag. Qed.

Lemma np_dot_zn_l (u v : point) :
  zero_or_nan (fst u) -> zero_or_nan (snd u) ->
  zero_or_nan (np_dot u v).
Proof. intros H1 H2. apply IEEE.add_zn; now apply IEEE.mul_zn_l. Qed.

Lemma np_dot_zn_r (u v : point) :
  zero_or_nan (fst v) -> zero_or_nan (snd v) ->
  zero_or_nan (np_dot u v).
Proof. intros H1 H2. apply IEEE.add_zn; now apply IEEE.mul_zn_r. Qed.

Lemma np_linalg_norm_zn (u : point) :
  zero_or_nan (fst u) -> zero_or_nan (snd u) ->
  zero_or_nan (np_linalg_norm u).
Proof. intros H1 H2. apply IEEE.sqrt_zn. now apply np_dot_zn_l. Qed.

(** With a zero-length vector the quotient is 0/0 (or has a NaN operand):
    always a NaN. *)
Lemma cosine_ratio_degenerate (a b c : point) :
  a = b \/ c = b -> cosine_ratio a b c = nan.
Proof.
  unfold cosine_ratio. cbv zeta. intros [->| ->].
  - destruct (np_sub_diag b) as [H1 H2]. apply IEEE.div_zn.
    + now apply np_dot_zn_l.
    + apply IEEE.mul_zn_l. now apply np_linalg_norm_zn.
  - destruct (np_sub_diag b) as [H1 H2]. apply IEEE.div_zn.
    + now apply np_dot_zn_r.
    + apply IEEE.mul_zn_r. now apply np_linalg_norm_zn.
Qed.

End Degenerate.

(** C9. On every point triple with [a = b] or [c = b], whatever the
    coordinates, [calculate_angle] returns a value: the division is numpy's,
    which yields a NaN for 0/0 where Python's own would raise, and nothing
    else in the function can fail.  The quotient is a NaN, the clip lets it
    through, and the value returned is whatever the inverse cosine makes of
    a NaN, converted to degrees: a NaN as soon as the inverse cosine maps a
    NaN to a NaN. *)
Theorem calculate_angle_degenerate (L : Libm) (a b c : point) :
  a = b \/ c = b ->
  exists v : float,
    calculate_angle a b c = v
    /\ cosine_ratio a b c = nan
    /\ v = degrees (arccos nan)
    /\ (arccos nan = nan -> v = nan).
Proof.
  intros H. pose proof (cosine_ratio_degenerate a b c H) as Q.
  exists (calculate_angle a b c).
  assert (E : calculate_angle a b c = degrees (arccos nan)).
  { rewrite calculate_angle_unfold, Q. reflexivity. }
  repeat split; try assumption.
  intros A. rewrite E, A. reflexivity.
Qed.

(** With hip and knee at one point the angle at the knee is a NaN under the
    reference functions; the squat evaluator goes on to return a result, in
    which both angle rules fire. *)
Lemma calculate_angle_degenerate_witness :
  is_nan (calculate_angle (L := ref_libm) (0.5, 0.5) (0.5, 0.5) (0.5, 0.85)) = true
  /\ exists r,
       analyze_squat_posture (L := ref_libm) degenerate_frame "left" = Some r
       /\ warnings r = [BACK_ANGLE; SQUAT_DEPTH].
Proof.
  destruct (calculate_angle_degenerate ref_libm (0.5, 0.5) (0.5, 0.5) (0.5, 0.85)
              (or_introl eq_refl)) as (v & Hv & _ & _ & Hn).
  split.
  - rewrite Hv, (Hn eq_refl). reflexivity.
  - eexists. split; reflexivity.
Defined.

(** * Further properties of the analyzer *)

(** ** More facts about binary64 arithmetic *)

Module FloatFacts.

Lemma nan_sub_l v : nan - v = nan.
Proof. apply Prim2SF_inj. rewrite sub_spec. reflexivity. Qed.

Lemma nan_sub_r v : v - nan = nan.
Proof.
  apply Prim2SF_inj. rewrite sub_spec. change (Prim2SF nan) with S754_nan.
  unfold SF64sub. destruct (Prim2SF v); reflexivity.
Qed.

Lemma nan_mul_l v : nan * v = nan.
Proof. apply Prim2SF_inj. rewrite mul_spec. reflexivity. Qed.

Lemma nan_mul_r v : v * nan = nan.
Proof.
  apply Prim2SF_inj. rewrite mul_spec. change (Prim2SF nan) with S754_nan.
  unfold SF64mul. destruct (Prim2SF v); reflexivity.
Qed.

Lemma nan_add_l v : nan + v = nan.
Proof. apply Prim2SF_inj. rewrite add_spec. reflexivity. Qed.

Lemma nan_add_r v : v + nan = nan.
Proof.
  apply Prim2SF_inj. rewrite add_spec. change (Prim2SF nan) with S754_nan.
  unfold SF64add. destruct (Prim2SF v); reflexivity.
Qed.

Lemma nan_div_l v : nan / v = nan.
Proof. apply Prim2SF_inj. rewrite div_spec. reflexivity. Qed.

(** The sign handed to the rounding shows in the sign of the result only. *)
Lemma SFabs_binary_round_aux s s' m e l :
  SFabs (binary_round_aux prec emax s m e l)
  = SFabs (binary_round_aux prec emax s' m e l).
Proof.
  unfold binary_round_aux.
  destruct (shr_fexp prec emax m e l) as [mrs' e'].
  destruct (shr_fexp prec emax _ e' loc_Exact) as [mrs'' e''].
  destruct (shr_m mrs''); try reflexivity.
  destruct (_ <=? _)%Z; reflexivity.
Qed.

Lemma SFabs_binary_normalize_opp m e :
  SFabs (binary_normalize prec emax m e false)
  = SFabs (binary_normalize prec emax (- m) e false).
Proof.
  destruct m; simpl; try reflexivity; unfold binary_round;
    destruct (shl_align _ _ _) as [mz ez]; apply SFabs_binary_round_aux.
Qed.

(** The distance of two values does not depend on their order. *)
Lemma abs_sub_comm u v : abs (u - v) = abs (v - u).
Proof.
  apply Prim2SF_inj. rewrite !abs_spec, !sub_spec. unfold SF64sub.
  destruct (Prim2SF u) as [su|su| |su mu eu],
           (Prim2SF v) as [sv|sv| |sv mv ev];
    simpl; try reflexivity;
    try (destruct su, sv; reflexivity).
  rewrite (Z.min_comm ev eu).
  rewrite SFabs_binary_normalize_opp. f_equal. f_equal. lia.
Qed.

(** A strict comparison that holds has two operands that are numbers and
    that differ. *)
Lemma ltb_strict u v :
  (u <? v) = true ->
  is_nan u = false /\ is_nan v = false /\ (u =? v) = false.
Proof.
  unfold is_nan. rewrite ltb_spec, !FloatAxioms.eqb_spec. unfold SFltb, SFeqb.
  intros H.
  assert (Nu : Prim2SF u <> S754_nan) by (intros E; rewrite E in H; discriminate).
  assert (Nv : Prim2SF v <> S754_nan)
    by (intros E; rewrite E in H; destruct (Prim2SF u); discriminate).
  rewrite !IEEE.SFcompare_refl by assumption.
  destruct (SFcompare (Prim2SF u) (Prim2SF v)) as [[]|]; try discriminate.
  repeat split.
Qed.

Lemma eqb_sym u v : (u =? v) = (v =? u).
Proof.
  rewrite !FloatAxioms.eqb_spec. unfold SFeqb.
  rewrite (IEEE.SFcompare_antisym (Prim2SF u) (Prim2SF v)).
  destruct (SFcompare (Prim2SF u) (Prim2SF v)) as [[]|]; reflexivity.
Qed.

End FloatFacts.

(** ** Frames that are too short *)

(** A lookup fails exactly at an index the frame does not reach. *)
Lemma xy_none_iff (landmarks : Landmarks) (i : nat) :
  xy landmarks i = None <-> (length landmarks <= i)%nat.
Proof.
  unfold xy, getitem, bind. rewrite <- nth_error_None.
  destruct (nth_error landmarks i); split; intros H;
    try discriminate H; reflexivity.
Qed.

Ltac split_lookups :=
  repeat match goal with
    | |- context [xy ?l ?i] =>
        let E := fresh "E" in
        destruct (xy l i) eqn:E;
        [ assert (~ (length l <= i)%nat)
            by (rewrite <- xy_none_iff; congruence)
        | apply xy_none_iff in E ]
    end.

Ltac joint_numbers :=
  cbv [Joint.hip Joint.knee Joint.ankle Joint.toe Joint.shoulder Joint.ear
       PoseLandmark.NOSE
       PoseLandmark.LEFT_EAR PoseLandmark.RIGHT_EAR
       PoseLandmark.LEFT_SHOULDER PoseLandmark.RIGHT_SHOULDER
       PoseLandmark.LEFT_HIP PoseLandmark.RIGHT_HIP
       PoseLandmark.LEFT_KNEE PoseLandmark.RIGHT_KNEE
       PoseLandmark.LEFT_ANKLE PoseLandmark.RIGHT_ANKLE
       PoseLandmark.LEFT_FOOT_INDEX PoseLandmark.RIGHT_FOOT_INDEX] in *.

(** The highest index each side needs: the foot index for a squat, the knee
    for a sitting posture. *)
Lemma squat_points_of_none (s : Side) (landmarks : Landmarks) :
  squat_points_of s landmarks = None
  <-> (length landmarks <= match s with Left => 31 | Right => 32 end)%nat.
Proof.
  unfold squat_points_of. destruct s; split_lookups; joint_numbers;
    cbn [bind]; split; intros; try discriminate; try reflexivity; lia.
Qed.

Lemma sitting_points_of_none (s : Side) (landmarks : Landmarks) :
  sitting_points_of s landmarks = None
  <-> (length landmarks <= match s with Left => 25 | Right => 26 end)%nat.
Proof.
  unfold sitting_points_of. destruct s; split_lookups; joint_numbers;
    cbn [bind]; split; intros; try discriminate; try reflexivity; lia.
Qed.

Lemma getitem_none_iff (landmarks : Landmarks) (i : nat) :
  getitem landmarks i = None <-> (length landmarks <= i)%nat.
Proof. apply nth_error_None. Qed.

(** X1. The classifier and the evaluators raise [IndexError] exactly on
    frames that are too short, and on nothing else: the classifier on fewer
    than 13 landmarks (it reads up to the right shoulder, index 12); the
    squat evaluator on fewer than 32 when facing is "left" and fewer than 33
    otherwise (foot index 31 or 32); the sitting evaluator on fewer than 26
    when facing is "left" and fewer than 27 otherwise (knee 25 or 26).  A
    frame of MediaPipe's 33 landmarks is therefore always classified and
    evaluated. *)
Theorem short_frames_raise (L : Libm) (landmarks : Landmarks) (facing : string) :
  (detect_facing_direction landmarks = None <-> (length landmarks <= 12)%nat)
  /\ (analyze_squat_posture landmarks facing = None
      <-> (length landmarks <= if String.eqb facing "left" then 31 else 32)%nat)
  /\ (analyze_sitting_posture landmarks facing = None
      <-> (length landmarks <= if String.eqb facing "left" then 25 else 26)%nat)
  /\ ((32 < length landmarks)%nat ->
      detect_facing_direction landmarks <> None
      /\ analyze_squat_posture landmarks facing <> None
      /\ analyze_sitting_posture landmarks facing <> None).
Proof.
  assert (D : detect_facing_direction landmarks = None
              <-> (length landmarks <= 12)%nat).
  { unfold detect_facing_direction.
    destruct (getitem landmarks PoseLandmark.LEFT_SHOULDER) as [ls|] eqn:E1;
      [assert (~ (length landmarks <= PoseLandmark.LEFT_SHOULDER)%nat)
         by (rewrite <- getitem_none_iff; congruence)
      | apply getitem_none_iff in E1];
    (destruct (getitem landmarks PoseLandmark.RIGHT_SHOULDER) as [rs|] eqn:E2;
      [assert (~ (length landmarks <= PoseLandmark.RIGHT_SHOULDER)%nat)
         by (rewrite <- getitem_none_iff; congruence)
      | apply getitem_none_iff in E2]);
    (destruct (getitem landmarks PoseLandmark.NOSE) as [n|] eqn:E3;
      [assert (~ (length landmarks <= PoseLandmark.NOSE)%nat)
         by (rewrite <- getitem_none_iff; congruence)
      | apply getitem_none_iff in E3]);
    joint_numbers; cbn [bind];
    try (destruct (_ || _)); split; intros;
      try discriminate; try reflexivity; lia. }
  assert (Q : analyze_squat_posture landmarks facing = None
              <-> (length landmarks
                   <= if String.eqb facing "left" then 31 else 32)%nat).
  { rewrite analyze_squat_posture_run.
    destruct (String.eqb_spec facing "left") as [->|N].
    - rewrite (squat_points_side Left), <- (squat_points_of_none Left).
      destruct (squat_points_of Left landmarks) as [[[[[? ?] ?] ?] ?]|];
        split; congruence.
    - rewrite (squat_points_else facing landmarks N),
        <- (squat_points_of_none Right).
      destruct (squat_points_of Right landmarks) as [[[[[? ?] ?] ?] ?]|];
        split; congruence. }
  assert (S : analyze_sitting_posture landmarks facing = None
              <-> (length landmarks
                   <= if String.eqb facing "left" then 25 else 26)%nat).
  { rewrite analyze_sitting_posture_run.
    destruct (String.eqb_spec facing "left") as [->|N].
    - rewrite (sitting_points_side Left), <- (sitting_points_of_none Left).
      destruct (sitting_points_of Left landmarks) as [[[[? ?] ?] ?]|];
        split; congruence.
    - rewrite (sitting_points_else facing landmarks N),
        <- (sitting_points_of_none Right).
      destruct (sitting_points_of Right landmarks) as [[[[? ?] ?] ?]|];
        split; congruence. }
  repeat split; try apply D; try apply Q; try apply S.
  - rewrite D. lia.
  - rewrite Q. destruct (String.eqb facing "left"); lia.
  - rewrite S. destruct (String.eqb facing "left"); lia.
Qed.

(** ** The knee-over-toe rule at its edges *)

(** X2. Under a facing string that is neither "left" nor "right" the squat
    evaluator cannot raise the knee-over-toe warning, wherever the knee is:
    both alternatives of the test name a facing, and the string matches
    neither.  The two angle rules are all that is left. *)
Theorem unknown_facing_disables_knee_rule (L : Libm) (landmarks : Landmarks)
    (facing : string) (r : Result) :
  facing <> "left" -> facing <> "right" ->
  analyze_squat_posture landmarks facing = Some r ->
  ~ In KNEE_OVER_TOE (warnings r)
  /\ forall w, In w (warnings r) -> w = BACK_ANGLE \/ w = SQUAT_DEPTH.
Proof.
  intros Nl Nr. rewrite analyze_squat_posture_run.
  destruct (squat_points landmarks facing)
    as [[[[[hip knee] ankle] toe] shoulder]|]; [|discriminate].
  intros [= <-].
  destruct (squat_rules_unfold facing hip knee ankle toe shoulder) as (Uw & _).
  rewrite Uw.
  assert (T : knee_over_toe_test facing knee toe = false).
  { unfold knee_over_toe_test.
    destruct (String.eqb_spec facing "right"); [contradiction|].
    destruct (String.eqb_spec facing "left"); [contradiction|]. reflexivity. }
  rewrite T.
  destruct (in_three false (outside 30 60 (calculate_angle shoulder hip knee))
              (outside 80 120 (calculate_angle hip knee ankle)))
    as (M1 & _ & _ & M4 & _).
  cbv zeta in M1, M4. split.
  - rewrite M1. discriminate.
  - intros w Hw. destruct (M4 w Hw) as [E|E]; [|exact E].
    subst w. apply M1 in Hw. discriminate.
Qed.

(** With the facing "up" the knee of [squat_frame_right], which is ahead of
    the toe, goes unreported. *)
Lemma unknown_facing_disables_knee_rule_witness :
  exists r,
    analyze_squat_posture (L := ref_libm) squat_frame_right "up" = Some r
    /\ ~ In KNEE_OVER_TOE (warnings r)
    /\ flt (fst (0.55, 0.9)) (fst (0.6, 0.6)).
Proof.
  eexists. split; [reflexivity|]. split; [|reflexivity].
  assert (Nl : "up" <> "left") by discriminate.
  assert (Nr : "up" <> "right") by discriminate.
  apply (unknown_facing_disables_knee_rule ref_libm squat_frame_right "up"
           _ Nl Nr eq_refl).
Defined.

(** X3. The knee-over-toe test is strict and blind to NaN: whenever the
    squat evaluator raises the warning, knee.x and toe.x are both numbers
    and they differ.  A knee exactly above the toe is accepted under either
    facing, and a NaN in either x-coordinate silences the rule. *)
Theorem knee_over_toe_is_strict (L : Libm) (landmarks : Landmarks)
    (facing : string) (r : Result) (hip knee ankle toe shoulder : point) :
  analyze_squat_posture landmarks facing = Some r ->
  squat_points landmarks facing = Some (hip, knee, ankle, toe, shoulder) ->
  In KNEE_OVER_TOE (warnings r) ->
  is_nan (fst knee) = false /\ is_nan (fst toe) = false
  /\ (fst knee =? fst toe) = false.
Proof.
  rewrite analyze_squat_posture_run. intros H Hp. rewrite Hp in H.
  injection H as <-.
  destruct (squat_rules_unfold facing hip knee ankle toe shoulder) as (Uw & _).
  rewrite Uw.
  destruct (in_three (knee_over_toe_test facing knee toe)
              (outside 30 60 (calculate_angle shoulder hip knee))
              (outside 80 120 (calculate_angle hip knee ankle)))
    as (M1 & _).
  cbv zeta in M1. rewrite M1. unfold knee_over_toe_test.
  rewrite orb_true_iff, !andb_true_iff.
  intros [[_ H]|[_ H]]; apply FloatFacts.ltb_strict in H;
    destruct H as (A & B & C).
  - repeat split; try assumption. now rewrite FloatFacts.eqb_sym.
  - repeat split; assumption.
Qed.

(** On [squat_frame_right] the warning is raised, and knee.x = 0.6 and
    toe.x = 0.55 are two different numbers. *)
Lemma knee_over_toe_is_strict_witness :
  (fst (0.6, 0.6) =? fst (0.55, 0.9)) = false.
Proof.
  assert (W : exists r,
             analyze_squat_posture (L := ref_libm) squat_frame_right "right"
             = Some r /\ In KNEE_OVER_TOE (warnings r)).
  { eexists. split; [reflexivity|]. left. reflexivity. }
  destruct W as (r & Hr & Hw).
  apply (knee_over_toe_is_strict ref_libm squat_frame_right "right" r
           (0.4, 0.6) (0.6, 0.6) (0.6, 0.85) (0.55, 0.9) (0.4, 0.3)
           Hr eq_refl Hw).
Defined.

(** ** NaN in, NaN out *)

Section NaNPropagation.
Context {L : Libm}.

Lemma has_nan_cases (p : point) :
  has_nan p = true -> exists v, p = (nan, v) \/ p = (v, nan).
Proof.
  destruct p as [p0 p1]. unfold has_nan. cbn [fst snd].
  rewrite orb_true_iff. intros [H|H]; apply IEEE.is_nan_true in H; subst.
  - exists p1. now left.
  - exists p0. now right.
Qed.

(** One NaN coordinate anywhere makes the quotient a NaN. *)
Lemma cosine_ratio_nan_coordinate (a b c : point) :
  has_nan a || has_nan b || has_nan c = true -> cosine_ratio a b c = nan.
Proof.
  rewrite !orb_true_iff. unfold cosine_ratio, np_dot, np_sub. cbv zeta.
  intros [[H|H]|H]; apply has_nan_cases in H; destruct H as (v & [-> | ->]);
    cbn [fst snd];
    rewrite ?FloatFacts.nan_sub_l, ?FloatFacts.nan_sub_r;
    rewrite ?FloatFacts.nan_mul_l, ?FloatFacts.nan_mul_r;
    rewrite ?FloatFacts.nan_add_l, ?FloatFacts.nan_add_r;
    apply FloatFacts.nan_div_l.
Qed.

(** An angle whose quotient is a NaN fails every interval test, once the
    inverse cosine passes the NaN on. *)
Lemma nan_angle_outside (a b c : point) (lo hi : float) :
  arccos nan = nan -> cosine_ratio a b c = nan ->
  calculate_angle a b c = nan /\ outside lo hi (calculate_angle a b c) = true.
Proof.
  intros A Q.
  assert (E : calculate_angle a b c = nan).
  { rewrite calculate_angle_unfold, Q.
    change (np_clip nan (-1) 1) with nan. rewrite A. reflexivity. }
  split; [exact E|]. rewrite E. apply outside_iff. apply nan_not_within.
Qed.

End NaNPropagation.

(** X4. A NaN in any coordinate of any of the three points makes the
    quotient of [calculate_angle] a NaN: the function then returns what the
    inverse cosine makes of a NaN, in degrees, which is a NaN as soon as the
    inverse cosine passes NaN on.  Nothing is raised. *)
Theorem nan_coordinate_gives_nan_angle (L : Libm) (a b c : point) :
  has_nan a || has_nan b || has_nan c = true ->
  cosine_ratio a b c = nan
  /\ calculate_angle a b c = degrees (arccos nan)
  /\ (arccos nan = nan -> calculate_angle a b c = nan).
Proof.
  intros H. pose proof (cosine_ratio_nan_coordinate a b c H) as Q.
  assert (E : calculate_angle a b c = degrees (arccos nan)).
  { rewrite calculate_angle_unfold, Q. reflexivity. }
  repeat split; try assumption.
  intros A. rewrite E, A. reflexivity.
Qed.

(** A NaN as the y-coordinate of the vertex. *)
Lemma nan_coordinate_gives_nan_angle_witness :
  is_nan (calculate_angle (L := ref_libm) (1, 0) (0, nan) (0, 1)) = true.
Proof.
  destruct (nan_coordinate_gives_nan_angle ref_libm (1, 0) (0, nan) (0, 1)
              eq_refl) as (_ & _ & H).
  rewrite (H eq_refl). reflexivity.
Defined.

(** X5. Coincident landmarks reach the verdict unannounced.  When the
    detector reports one and the same point for hip and knee, both angles
    of the squat evaluator are NaN: the result (there is one, nothing is
    raised) has a bad verdict, holds both angle warnings, and reports
    [round(nan, 1)] for the knee and for the back.  In the sitting
    evaluator a hip that coincides with the shoulder or with the knee gives
    a NaN back angle and the neutral-spine warning.  (With an inverse
    cosine that passes NaN on.) *)
Theorem coincident_landmarks_flagged (L : Libm) :
  arccos nan = nan ->
  (forall facing hip ankle toe shoulder,
     let r := squat_rules facing hip hip ankle toe shoulder in
     isGoodPosture r = false
     /\ In BACK_ANGLE (warnings r) /\ In SQUAT_DEPTH (warnings r)
     /\ angles r = [("knee", np_round1 nan); ("back", np_round1 nan)]
     /\ feedback r = "Adjust your squat form")
  /\ (forall ear shoulder hip knee,
        shoulder = hip \/ knee = hip ->
        let r := sitting_rules ear shoulder hip knee in
        isGoodPosture r = false
        /\ In NEUTRAL_SPINE (warnings r)
        /\ nth_error (angles r) 1 = Some ("back", np_round1 nan)).
Proof.
  intros A. split.
  - intros facing hip ankle toe shoulder r.
    destruct (nan_angle_outside hip hip ankle 80 120 A
                (cosine_ratio_degenerate hip hip ankle (or_introl eq_refl)))
      as (K & KO).
    destruct (nan_angle_outside shoulder hip hip 30 60 A
                (cosine_ratio_degenerate shoulder hip hip (or_intror eq_refl)))
      as (B & BO).
    destruct (squat_rules_unfold facing hip hip ankle toe shoulder)
      as (Uw & Ug & Uf).
    fold r in Uw, Ug, Uf. rewrite KO, BO in Uw, Ug.
    repeat split.
    + rewrite Ug. now rewrite !andb_false_r.
    + rewrite Uw. apply in_or_app. right. now left.
    + rewrite Uw. apply in_or_app. right. apply in_or_app. right. now left.
    + unfold r, squat_rules. cbn [angles]. now rewrite K, B.
    + rewrite Uf, Ug. now rewrite !andb_false_r.
  - intros ear shoulder hip knee H r.
    destruct (nan_angle_outside shoulder hip knee 80 115 A
                (cosine_ratio_degenerate shoulder hip knee H)) as (B & BO).
    destruct (sitting_rules_unfold ear shoulder hip knee)
      as (Uw & Ug & _ & Ua).
    fold r in Uw, Ug, Ua. rewrite BO in Uw, Ug.
    repeat split.
    + rewrite Ug. now rewrite andb_false_r.
    + rewrite Uw. apply in_or_app. right. now left.
    + rewrite Ua, B. reflexivity.
Qed.

(** On [degenerate_frame], whose left hip and knee coincide, the evaluator
    returns a bad verdict with both angle warnings. *)
Lemma coincident_landmarks_flagged_witness :
  exists r,
    analyze_squat_posture (L := ref_libm) degenerate_frame "left" = Some r
    /\ isGoodPosture r = false
    /\ In SQUAT_DEPTH (warnings r).
Proof.
  destruct (coincident_landmarks_flagged ref_libm eq_refl) as (H & _).
  destruct (H "left" (0.5, 0.5) (0.5, 0.85) (0.45, 0.85) (0.5, 0.3))
    as (Hg & _ & Hs & _).
  eexists. split; [reflexivity|]. split; [exact Hg | exact Hs].
Defined.

(** ** The head-posture rule *)

(** X6. The head-posture rule measures a distance, not a direction: the neck
    value is [abs(ear.x - shoulder.x) * 100], so exchanging the x-coordinates
    of ear and shoulder (a head as far behind the shoulder as it was ahead)
    leaves the reported neck value and the head-posture warning as they
    were. *)
Theorem head_rule_ignores_direction (L : Libm)
    (ear shoulder hip knee ear' shoulder' hip' knee' : point) :
  fst ear' = fst shoulder -> fst shoulder' = fst ear ->
  let r := sitting_rules ear shoulder hip knee in
  let r' := sitting_rules ear' shoulder' hip' knee' in
  nth_error (angles r) 0 = nth_error (angles r') 0
  /\ (In HEAD_POSTURE (warnings r) <-> In HEAD_POSTURE (warnings r')).
Proof.
  intros E1 E2 r r'.
  destruct (sitting_rules_unfold ear shoulder hip knee) as (Uw & _ & _ & Ua).
  destruct (sitting_rules_unfold ear' shoulder' hip' knee')
    as (Uw' & _ & _ & Ua').
  fold r in Uw, Ua. fold r' in Uw', Ua'.
  rewrite E1, E2, (FloatFacts.abs_sub_comm (fst shoulder) (fst ear)) in Uw', Ua'.
  split.
  - rewrite Ua, Ua'. reflexivity.
  - rewrite Uw, Uw'.
    destruct (in_two (10 <? abs (fst ear - fst shoulder) * 100)
                (outside 80 115 (calculate_angle shoulder hip knee)))
      as (M & _).
    destruct (in_two (10 <? abs (fst ear - fst shoulder) * 100)
                (outside 80 115 (calculate_angle shoulder' hip' knee')))
      as (M' & _).
    cbv zeta in M, M'. rewrite M, M'. reflexivity.
Qed.

(** An ear 0.15 ahead of the shoulder and an ear 0.15 behind it both give
    the neck value 15 (up to the last bit of the subtraction). *)
Lemma head_rule_ignores_direction_witness :
  In HEAD_POSTURE
    (warnings (sitting_rules (L := ref_libm) (0.25, 0.2) (0.4, 0.35) (0.4, 0.6) (0.7, 0.6)))
  <-> In HEAD_POSTURE
    (warnings (sitting_rules (L := ref_libm) (0.4, 0.2) (0.25, 0.35) (0.4, 0.6) (0.7, 0.6))).
Proof.
  apply (head_rule_ignores_direction ref_libm
           (0.25, 0.2) (0.4, 0.35) (0.4, 0.6) (0.7, 0.6)
           (0.4, 0.2) (0.25, 0.35) (0.4, 0.6) (0.7, 0.6) eq_refl eq_refl).
Defined.

(** ** The colours of the drawn landmarks *)

(** X7. Which landmark gets which colour in [draw_custom_landmarks], for
    every facing string and every index.  With [s] the left side when facing
    is "left" and the right side otherwise: the landmark is black exactly
    when it is the shoulder, hip or knee of side [s]; it has the knee colour
    (139, 0, 0) exactly when it is the ankle of side [s], although that list
    also names hip and knee, which the back list takes first; it has the
    neck colour (0, 0, 139) exactly when it is the ear of side [s], although
    that list also names the shoulder; every other landmark, all those of
    the other side among them, is white. *)
Theorem landmark_color_spec (facing : string) (idx : nat) :
  let s := side_of facing in
  (landmark_color facing idx = (0, 0, 0)%Z
   <-> idx = Joint.shoulder s \/ idx = Joint.hip s \/ idx = Joint.knee s)
  /\ (landmark_color facing idx = (139, 0, 0)%Z <-> idx = Joint.ankle s)
  /\ (landmark_color facing idx = (0, 0, 139)%Z <-> idx = Joint.ear s)
  /\ (landmark_color facing idx = (255, 255, 255)%Z
      <-> idx <> Joint.shoulder s /\ idx <> Joint.hip s /\ idx <> Joint.knee s
          /\ idx <> Joint.ankle s /\ idx <> Joint.ear s).
Proof.
  unfold side_of, landmark_color, back_pts, knee_pts, neck_pts, contains.
  destruct (String.eqb facing "left"); joint_numbers; cbv zeta;
    do 33 (destruct idx as [|idx];
           [cbn; repeat split; intros; try discriminate; try reflexivity; lia|]);
    cbn; repeat split; intros; try discriminate; try reflexivity; lia.
Qed.

(** ** The frame pipeline *)

Section PipelineFacts.
Context {L : Libm} {H : Host}.

(** What the loop of [process_video] returns, whatever it starts from: the
    results it was given, followed by one analysis for each frame with
    landmarks, in order. *)
Lemma video_loop_iff (posture_type : string) (fps : Z) (frames : list Frame) :
  forall (k : Z) (acc rs : list Analysis),
    video_loop posture_type fps frames k acc = Some rs
    <-> exists tail,
          rs = (acc ++ tail)%list
          /\ Forall2
               (fun (d : Z * Frame * Landmarks) (a : Analysis) =>
                  let '(position, frame, landmarks) := d in
                  analyze_frame posture_type (height frame) (width frame)
                    landmarks = Some (result a)
                  /\ truediv position fps = Some (timestamp a)
                  /\ postureType a = posture_type)
               (detected_from k frames) tail.
Proof.
  induction frames as [|frame rest IH]; intros k acc rs;
    cbn [video_loop detected_from].
  - split.
    + intros [= <-]. exists []. split; [now rewrite app_nil_r | constructor].
    + intros (tail & -> & F). inversion F. now rewrite app_nil_r.
  - destruct (pose_landmarks frame) as [landmarks|]; [|apply IH]. split.
    + destruct (analyze_frame posture_type (height frame) (width frame)
                  landmarks) as [r|] eqn:A; [|discriminate].
      destruct (truediv (k + 1) fps) as [ts|] eqn:T; [|discriminate].
      cbn [bind]. intros Hl. apply IH in Hl. destruct Hl as (tail & -> & F).
      eexists (_ :: tail). split.
      * unfold append. now rewrite <- app_assoc.
      * constructor; [|exact F]. cbn. repeat split; assumption.
    + intros (tail & -> & F).
      inversion F as [|d a ds tl Hd F']; subst.
      destruct Hd as (A & T & P). rewrite A, T. cbn [bind].
      apply IH. exists tl. split; [|exact F'].
      unfold append. rewrite <- app_assoc. cbn.
      destruct a as [ar ats apt]. cbn in *. now subst apt.
Qed.

Lemma detected_from_nil (frames : list Frame) :
  forall k,
    detected_from k frames = []
    <-> Forall (fun frame => pose_landmarks frame = None) frames.
Proof.
  induction frames as [|frame rest IH]; intros k; cbn [detected_from].
  - split; [constructor | reflexivity].
  - destruct (pose_landmarks frame) as [landmarks|] eqn:P.
    + split; [discriminate|]. intros F. inversion F; subst. congruence.
    + rewrite IH. split.
      * intros F. now constructor.
      * intros F. now inversion F.
Qed.

(** Any posture type but "squat" is a sitting posture to the pipeline. *)
Lemma analyze_frame_else (posture_type : string) (h w : Z)
    (landmarks : Landmarks) :
  posture_type <> "squat" ->
  analyze_frame posture_type h w landmarks = analyze_frame "sitting" h w landmarks.
Proof.
  intros N. unfold analyze_frame.
  destruct (String.eqb_spec posture_type "squat"); [contradiction|].
  reflexivity.
Qed.

Lemma video_loop_else (posture_type : string) (fps : Z) (frames : list Frame) :
  posture_type <> "squat" ->
  forall (k : Z) (acc acc' : list Analysis),
    map (fun a => (result a, timestamp a)) acc
    = map (fun a => (result a, timestamp a)) acc' ->
    option_map (map (fun a => (result a, timestamp a)))
      (video_loop posture_type fps frames k acc)
    = option_map (map (fun a => (result a, timestamp a)))
        (video_loop "sitting" fps frames k acc').
Proof.
  intros N.
  induction frames as [|frame rest IH]; intros k acc acc' E; cbn [video_loop].
  - cbn. now rewrite E.
  - destruct (pose_landmarks frame) as [landmarks|]; [|now apply IH].
    rewrite (analyze_frame_else posture_type _ _ landmarks N).
    destruct (analyze_frame "sitting" (height frame) (width frame) landmarks)
      as [r|]; [|reflexivity].
    destruct (truediv (k + 1) fps) as [ts|]; [|reflexivity].
    cbn [bind]. apply IH. unfold append. rewrite !map_app, E. reflexivity.
Qed.

(** The classifier answers with one of its two strings. *)
Lemma detect_facing_direction_side (landmarks : Landmarks) (facing : string) :
  detect_facing_direction landmarks = Some facing ->
  exists s, facing = facing_of s.
Proof.
  unfold detect_facing_direction.
  destruct (getitem landmarks PoseLandmark.LEFT_SHOULDER); [|discriminate].
  destruct (getitem landmarks PoseLandmark.RIGHT_SHOULDER); [|discriminate].
  destruct (getitem landmarks PoseLandmark.NOSE); [|discriminate].
  cbn [bind]. destruct (_ || _); intros [= <-];
    [exists Right | exists Left]; reflexivity.
Qed.

(** [int] refuses the product of a NaN or an infinity with anything. *)
Lemma py_int_not_finite (u v : float) :
  not_finite u = true -> py_int (u * v) = None.
Proof.
  unfold not_finite, py_int. rewrite mul_spec. unfold SF64mul.
  destruct (Prim2SF u); try discriminate; intros _;
    destruct (Prim2SF v); reflexivity.
Qed.

Lemma to_pixel_not_finite (h w : Z) (lm : Landmark.t) :
  not_finite (Landmark.x lm) || not_finite (Landmark.y lm) = true ->
  to_pixel h w lm = None.
Proof.
  rewrite orb_true_iff. unfold to_pixel. intros [N|N].
  - now rewrite (py_int_not_finite _ _ N).
  - rewrite (py_int_not_finite _ (Z2F h) N).
    destruct (py_int (Landmark.x lm * Z2F w)); reflexivity.
Qed.

(** The loop over the landmarks does not get past one it cannot place. *)
Lemma draw_circles_not_finite (h w : Z) (facing : string)
    (lms : list Landmark.t) :
  Exists (fun lm => not_finite (Landmark.x lm) || not_finite (Landmark.y lm) = true)
    lms ->
  forall idx, draw_circles h w facing idx lms = None.
Proof.
  induction 1 as [lm rest N|lm rest _ IH]; intros idx; cbn [draw_circles].
  - now rewrite (to_pixel_not_finite h w lm N).
  - destruct (to_pixel h w lm); [|reflexivity]. cbn [bind].
    destruct (cv2_circle _ _); [|reflexivity]. cbn [bind]. apply IH.
Qed.

Lemma analyze_frame_not_finite (posture_type : string) (h w : Z)
    (landmarks : Landmarks) :
  Exists (fun lm => not_finite (Landmark.x lm) || not_finite (Landmark.y lm) = true)
    landmarks ->
  (forall facing, draw_custom_landmarks h w landmarks facing = None)
  /\ analyze_frame posture_type h w landmarks = None.
Proof.
  intros E.
  assert (D : forall facing, draw_custom_landmarks h w landmarks facing = None).
  { intros facing. unfold draw_custom_landmarks.
    destruct (draw_connections h w landmarks POSE_CONNECTIONS); [|reflexivity].
    cbn [bind]. now apply draw_circles_not_finite. }
  split; [exact D|]. unfold analyze_frame.
  destruct (detect_facing_direction landmarks); [|reflexivity].
  cbn [bind]. now rewrite D.
Qed.

Lemma video_loop_not_finite (posture_type : string) (fps : Z)
    (frames : list Frame) :
  Exists (fun frame =>
            exists landmarks,
              pose_landmarks frame = Some landmarks
              /\ Exists (fun lm => not_finite (Landmark.x lm)
                                   || not_finite (Landmark.y lm) = true)
                   landmarks)
    frames ->
  forall k acc, video_loop posture_type fps frames k acc = None.
Proof.
  induction 1 as [frame rest (landmarks & P & E)|frame rest _ IH];
    intros k acc; cbn [video_loop].
  - rewrite P.
    now rewrite (proj2 (analyze_frame_not_finite posture_type _ _ landmarks E)).
  - destruct (pose_landmarks frame) as [landmarks|]; [|apply IH].
    destruct (analyze_frame _ _ _ _); [|reflexivity].
    destruct (truediv _ _); [|reflexivity]. cbn [bind]. apply IH.
Qed.

End PipelineFacts.

(** X8. What [process_video] returns, when it returns: exactly one analysis
    for each frame in which pose landmarks were found, in frame order, and
    none for the other frames.  The analysis of a frame is the evaluator's
    result for it, stamped with the posture type as given and with the
    frame's position divided by the frame rate, the position being counted
    over all frames, with or without landmarks, from 1: the first frame of
    a video is stamped 1/fps, not 0.  Conversely the method returns as soon
    as every frame with landmarks can be analyzed and stamped. *)
Theorem process_video_results (L : Libm) (H : Host) (posture_type : string)
    (fps : Z) (frames : list Frame) (rs : list Analysis) :
  process_video posture_type fps frames = Some rs
  <-> Forall2
        (fun (d : Z * Frame * Landmarks) (a : Analysis) =>
           let '(position, frame, landmarks) := d in
           analyze_frame posture_type (height frame) (width frame) landmarks
           = Some (result a)
           /\ truediv position fps = Some (timestamp a)
           /\ postureType a = posture_type)
        (detected_from 0 frames) rs.
Proof.
  unfold process_video. rewrite video_loop_iff. cbn [app]. split.
  - intros (tail & -> & F). exact F.
  - intros F. exists rs. split; [reflexivity | exact F].
Qed.

(** In [sample_video] at 25 frames per second the two frames with a pose
    are the second and the fourth: two analyses, stamped 2/25 and 4/25. *)
Lemma process_video_results_witness :
  exists a1 a2,
    process_video (L := ref_libm) (H := ref_host) "sitting" 25 sample_video
    = Some [a1; a2]
    /\ truediv (H := ref_host) 2 25 = Some (timestamp a1)
    /\ truediv (H := ref_host) 4 25 = Some (timestamp a2)
    /\ postureType a1 = "sitting".
Proof.
  destruct (process_video (L := ref_libm) (H := ref_host) "sitting" 25
              sample_video) as [[|a1 [|a2 [|a3 rs]]]|] eqn:E;
    try (vm_compute in E; discriminate E).
  exists a1, a2. split; [reflexivity|].
  apply (process_video_results ref_libm ref_host "sitting" 25 sample_video)
    in E.
  change (detected_from 0 sample_video)
    with [(2%Z, vga (Some sitting_frame_left), sitting_frame_left);
          (4%Z, vga (Some squat_frame_right), squat_frame_right)] in E.
  inversion E as [|d1 b1 ds1 tl1 H1 F1]; subst.
  inversion F1 as [|d2 b2 ds2 tl2 H2 _]; subst.
  destruct H1 as (_ & T1 & P1). destruct H2 as (_ & T2 & _).
  repeat split; assumption.
Defined.

(** X9. A frame rate of zero (what a capture reports when it has none to
    report) makes the method raise at the first frame that has landmarks,
    since the timestamp divides by it; the method returns only when no
    frame has landmarks, and then with no analysis at all.  In particular a
    video without frames yields an empty list and no error. *)
Theorem process_video_zero_fps (L : Libm) (H : Host) (posture_type : string)
    (frames : list Frame) (rs : list Analysis) :
  process_video posture_type 0 frames = Some rs
  <-> rs = [] /\ Forall (fun frame => pose_landmarks frame = None) frames.
Proof.
  unfold process_video. rewrite video_loop_iff. cbn [app]. split.
  - intros (tail & -> & F).
    destruct (detected_from 0 frames) as [|[[position frame] landmarks] ds] eqn:D.
    + inversion F; subst. split; [reflexivity|].
      now apply (detected_from_nil frames 0).
    + inversion F as [|? a ? tl Hd _]; subst.
      destruct Hd as (_ & T & _).
      unfold truediv in T. cbn in T. discriminate.
  - intros (-> & F). exists []. split; [reflexivity|].
    apply (detected_from_nil frames 0) in F. rewrite F. constructor.
Qed.

(** At a frame rate of zero [sample_video] makes the method raise, and two
    frames without a pose make it return the empty list. *)
Lemma process_video_zero_fps_witness :
  process_video (L := ref_libm) (H := ref_host) "squat" 0 sample_video = None
  /\ process_video (L := ref_libm) (H := ref_host) "squat" 0 [vga None; vga None]
     = Some [].
Proof.
  split; [reflexivity|].
  apply (process_video_zero_fps ref_libm ref_host "squat"
           [vga None; vga None] []).
  split; [reflexivity | repeat constructor].
Defined.

(** X10. The posture type is not validated: any string other than "squat"
    (a misspelt "Squat", an unknown "plank") is evaluated by the sitting
    evaluator, for an image and for a video alike, and the results and
    timestamps are those the string "sitting" would give; the string itself
    is what every analysis carries as its posture type. *)
Theorem posture_type_unvalidated (L : Libm) (H : Host) (posture_type : string)
    (fps : Z) (frames : list Frame) (image : Frame) :
  posture_type <> "squat" ->
  option_map (map (fun a => (result a, timestamp a)))
    (process_image posture_type image)
  = option_map (map (fun a => (result a, timestamp a)))
      (process_image "sitting" image)
  /\ option_map (map (fun a => (result a, timestamp a)))
       (process_video posture_type fps frames)
     = option_map (map (fun a => (result a, timestamp a)))
         (process_video "sitting" fps frames)
  /\ (forall rs, process_image posture_type image = Some rs ->
        Forall (fun a => postureType a = posture_type) rs)
  /\ (forall rs, process_video posture_type fps frames = Some rs ->
        Forall (fun a => postureType a = posture_type) rs).
Proof.
  intros N. split; [|split; [|split]].
  - unfold process_image. destruct (pose_landmarks image) as [landmarks|];
      [|reflexivity].
    rewrite (analyze_frame_else posture_type _ _ landmarks N).
    destruct (analyze_frame "sitting" _ _ landmarks); reflexivity.
  - unfold process_video. now apply video_loop_else.
  - intros rs. unfold process_image.
    destruct (pose_landmarks image) as [landmarks|].
    + destruct (analyze_frame posture_type _ _ landmarks); [|discriminate].
      cbn. intros [= <-]. repeat constructor.
    + intros [= <-]. constructor.
  - intros rs Hrs. unfold process_video in Hrs.
    apply video_loop_iff in Hrs. destruct Hrs as (tail & -> & F).
    cbn [app].
    induction F as [|[[position frame] landmarks] a ds tl (_ & _ & P) _ IH];
      constructor; assumption.
Qed.

(** The posture type "plank" on an image of [sitting_frame_left]: the
    sitting rules run, and the analysis is labelled "plank". *)
Lemma posture_type_unvalidated_witness :
  exists a,
    process_image (L := ref_libm) (H := ref_host) "plank"
      (vga (Some sitting_frame_left)) = Some [a]
    /\ postureType a = "plank"
    /\ warnings (result a) = [HEAD_POSTURE].
Proof.
  assert (N : "plank" <> "squat") by discriminate.
  destruct (posture_type_unvalidated ref_libm ref_host "plank" 25 []
              (vga (Some sitting_frame_left)) N) as (_ & _ & P & _).
  eexists. split; [reflexivity|]. split; [|reflexivity].
  specialize (P _ eq_refl). now inversion P.
Defined.

(** X11. In the pipeline the evaluators only ever see a facing the
    classifier produced.  On a frame of at least 33 landmarks whose drawing
    completes, classification and evaluation both succeed (no lookup can
    fail), the facing is "left" or "right", never anything else, and the
    analysis is the evaluator's result for that side. *)
Theorem full_frame_is_analyzed (L : Libm) (H : Host) (posture_type : string)
    (h w : Z) (landmarks : Landmarks) :
  (32 < length landmarks)%nat ->
  (forall facing, draw_custom_landmarks h w landmarks facing = Some tt) ->
  exists (s : Side) (r : Result),
    detect_facing_direction landmarks = Some (facing_of s)
    /\ analyze_frame posture_type h w landmarks = Some r
    /\ (if String.eqb posture_type "squat"
        then analyze_squat_posture landmarks (facing_of s)
        else analyze_sitting_posture landmarks (facing_of s)) = Some r.
Proof.
  intros Hlen Hdraw. unfold analyze_frame.
  destruct (detect_facing_direction landmarks) as [facing|] eqn:D.
  - destruct (detect_facing_direction_side landmarks facing D) as (s & ->).
    exists s. cbn [bind]. rewrite Hdraw. cbn [bind].
    destruct (String.eqb posture_type "squat").
    + destruct (analyze_squat_posture landmarks (facing_of s)) as [r|] eqn:A.
      * exists r. repeat split.
      * exfalso. rewrite analyze_squat_posture_run, squat_points_side in A.
        destruct (squat_points_of s landmarks) as [[[[[? ?] ?] ?] ?]|] eqn:P;
          [discriminate|].
        apply squat_points_of_none in P. destruct s; lia.
    + destruct (analyze_sitting_posture landmarks (facing_of s)) as [r|] eqn:A.
      * exists r. repeat split.
      * exfalso. rewrite analyze_sitting_posture_run, sitting_points_side in A.
        destruct (sitting_points_of s landmarks) as [[[[? ?] ?] ?]|] eqn:P;
          [discriminate|].
        apply sitting_points_of_none in P. destruct s; lia.
  - exfalso. unfold detect_facing_direction in D.
    destruct (getitem landmarks PoseLandmark.LEFT_SHOULDER) eqn:E1;
      [|apply getitem_none_iff in E1; joint_numbers; lia].
    destruct (getitem landmarks PoseLandmark.RIGHT_SHOULDER) eqn:E2;
      [|apply getitem_none_iff in E2; joint_numbers; lia].
    destruct (getitem landmarks PoseLandmark.NOSE) eqn:E3;
      [|apply getitem_none_iff in E3; joint_numbers; lia].
    cbn [bind] in D. destruct (_ || _); discriminate.
Qed.

(** [facing_frame] has 33 landmarks; the classifier says "right" and the
    squat evaluator runs on the right side. *)
Lemma full_frame_is_analyzed_witness :
  exists r,
    analyze_frame (L := ref_libm) (H := ref_host) "squat" 480 640 facing_frame
    = Some r
    /\ analyze_squat_posture (L := ref_libm) facing_frame "right" = Some r.
Proof.
  assert (Hlen : (32 < length facing_frame)%nat) by (vm_compute; lia).
  assert (Hdraw : forall facing,
             draw_custom_landmarks (H := ref_host) 480 640 facing_frame facing
             = Some tt) by (intros facing; reflexivity).
  destruct (full_frame_is_analyzed ref_libm ref_host "squat" 480 640
              facing_frame Hlen Hdraw) as (s & r & D & A & E).
  exists r. split; [exact A|].
  destruct s; [vm_compute in D; discriminate | exact E].
Defined.

(** X12. One landmark with a NaN or infinite x or y, anywhere in the frame
    and whether or not an evaluator would read it, stops the drawing: the
    conversion of its coordinates to a pixel raises.  As the drawing comes
    before the evaluation, the frame is not analyzed; [process_image] raises
    on such an image, and [process_video] raises on any video that has such
    a frame, returning none of the analyses of the other frames. *)
Theorem non_finite_landmark_raises (L : Libm) (H : Host)
    (posture_type : string) (fps : Z) (frames : list Frame) (frame : Frame)
    (landmarks : Landmarks) (lm : Landmark.t) :
  In frame frames ->
  pose_landmarks frame = Some landmarks ->
  In lm landmarks ->
  not_finite (Landmark.x lm) || not_finite (Landmark.y lm) = true ->
  (forall h w facing, draw_custom_landmarks h w landmarks facing = None)
  /\ process_image posture_type frame = None
  /\ process_video posture_type fps frames = None.
Proof.
  intros Hf Hp Hl Hn.
  assert (E : Exists (fun lm => not_finite (Landmark.x lm)
                                || not_finite (Landmark.y lm) = true)
                landmarks).
  { apply Exists_exists. exists lm. split; assumption. }
  split; [|split].
  - intros h w facing. now apply (analyze_frame_not_finite posture_type).
  - unfold process_image. rewrite Hp.
    now rewrite (proj2 (analyze_frame_not_finite posture_type _ _ landmarks E)).
  - unfold process_video. apply video_loop_not_finite.
    apply Exists_exists. exists frame. split; [exact Hf|].
    exists landmarks. split; assumption.
Qed.

(** [nan_frame] differs from [facing_frame] in the left heel, which no rule
    reads: as an image it raises, and as the last frame of a video it takes
    the analyses of the earlier frames with it. *)
Lemma non_finite_landmark_raises_witness :
  process_image (L := ref_libm) (H := ref_host) "squat" (vga (Some nan_frame))
  = None
  /\ process_video (L := ref_libm) (H := ref_host) "squat" 25
       (sample_video ++ [vga (Some nan_frame)]) = None
  /\ process_image (L := ref_libm) (H := ref_host) "squat"
       (vga (Some facing_frame)) <> None.
Proof.
  destruct (non_finite_landmark_raises ref_libm ref_host "squat" 25
              (sample_video ++ [vga (Some nan_frame)])
              (vga (Some nan_frame)) nan_frame (at_xy nan 0.9))
    as (_ & I & V).
  - apply in_or_app. right. now left.
  - reflexivity.
  - do 29 right. now left.
  - reflexivity.
  - split; [exact I|]. split; [exact V|]. vm_compute. discriminate.
Defined.
